(** * The global API registry of @opentelemetry/api

    A shallow embedding of [api/src/internal/global-utils.ts]: the three
    functions [registerGlobal], [getGlobal] and [unregisterGlobal], the
    module-level constants and variable they use, and the properties of the
    registry they implement.

    The shared global object is a finite map from registered symbols to API
    tables; every function runs in a small state-and-exception monad whose
    state is the process as one loaded copy of the module sees it. *)

From Stdlib Require Import Ascii String NArith.
From stdpp Require Import gmap strings pretty.

Local Open Scope string_scope.

(** ** Data model *)

(** The five optional properties of [OTelGlobalAPI]. *)
Inductive Capability := K_diag | K_trace | K_context | K_metrics | K_propagation.

(** [keyof OTelGlobalAPI]: the type parameter [Type] of the three functions
    ranges over all six property names, [version] included. *)
Inductive Key := K_version | K_api (c : Capability).

Global Instance Capability_eq_dec : EqDecision Capability.
Proof. solve_decision. Defined.

Global Instance Key_eq_dec : EqDecision Key.
Proof. solve_decision. Defined.

Definition Capability_to_nat (c : Capability) : nat :=
  match c with
  | K_diag => 0 | K_trace => 1 | K_context => 2 | K_metrics => 3
  | K_propagation => 4
  end.

Definition Capability_of_nat (n : nat) : option Capability :=
  match n with
  | 0 => Some K_diag | 1 => Some K_trace | 2 => Some K_context
  | 3 => Some K_metrics | 4 => Some K_propagation | _ => None
  end.

Global Instance Capability_countable : Countable Capability.
Proof.
  apply (inj_countable Capability_to_nat Capability_of_nat).
  intros []; reflexivity.
Defined.

(** The property name as it appears in a template literal. *)
Definition Capability_name (c : Capability) : string :=
  match c with
  | K_diag => "diag" | K_trace => "trace" | K_context => "context"
  | K_metrics => "metrics" | K_propagation => "propagation"
  end.

Definition Key_name (type : Key) : string :=
  match type with
  | K_version => "version"
  | K_api c => Capability_name c
  end.

(** A registered implementation is an object; the registry never looks into
    it, so an object is its identity. *)
Definition Instance := nat.

(** [OTelGlobalAPI[Type]]: a string for [version], and for the optional
    properties an implementation or [undefined] ([None]). *)
Definition Indexed (type : Key) : Type :=
  match type with
  | K_version => string
  | K_api _ => option Instance
  end.

(** [OTelGlobalAPI[Type] | undefined], the result type of [getGlobal]. *)
Definition IndexedOrUndefined (type : Key) : Type :=
  match type with
  | K_version => option string
  | K_api _ => option Instance
  end.

(** An API table.  The declared type makes [version] a required string, but
    [delete api[type]] can remove it, so the field is optional here.  A
    property that holds [undefined] reads like a missing one at every use in
    this module ([api[type]] tested for truth, [?.[type]] returned), so
    [slots] keeps only the properties that hold an implementation. *)
Record OTelGlobalAPI := mkAPI {
  version : option string;
  slots : gmap Capability Instance
}.

(** The object literal [{ version: VERSION }]. *)
Definition fresh_table (v : string) : OTelGlobalAPI :=
  {| version := Some v; slots := ∅ |}.

(** [api[type]] read for its truth value. *)
Definition truthy_prop (api : OTelGlobalAPI) (type : Key) : bool :=
  match type with
  | K_version =>
      match version api with
      | Some s => negb (String.eqb s "")
      | None => false
      end
  | K_api c => bool_decide (is_Some (slots api !! c))
  end.

(** [api[type]] read for its value. *)
Definition get_prop (api : OTelGlobalAPI) (type : Key) : IndexedOrUndefined type :=
  match type with
  | K_version => version api
  | K_api c => slots api !! c
  end.

(** [api[type] = instance]. *)
Definition set_prop (api : OTelGlobalAPI) (type : Key) : Indexed type -> OTelGlobalAPI :=
  match type with
  | K_version => fun s => {| version := Some s; slots := slots api |}
  | K_api c => fun i =>
      match i with
      | Some o => {| version := version api; slots := <[c := o]> (slots api) |}
      | None => {| version := version api; slots := delete c (slots api) |}
      end
  end.

(** [delete api[type]]. *)
Definition delete_prop (api : OTelGlobalAPI) (type : Key) : OTelGlobalAPI :=
  match type with
  | K_version => {| version := None; slots := slots api |}
  | K_api c => {| version := version api; slots := delete c (slots api) |}
  end.

(** [a ?? b]. *)
Definition nullish {A} (a : option A) (b : A) : A :=
  match a with
  | Some x => x
  | None => b
  end.

(** [`${api.version}`]. *)
Definition version_text (api : OTelGlobalAPI) : string :=
  match version api with
  | Some s => s
  | None => "undefined"
  end.

(** [Symbol.for(key)]: the global symbol registry hands out one symbol per
    key string, so a registered symbol is its key. *)
Definition Symbol_for (key : string) : string := key.

(** What the embedding observes of a run, in order. *)
Inductive Event :=
| NewDate (now : N)              (* [new Date()] read the clock *)
| DiagDebug (msg : string)       (* [diag.debug(msg)] was called *)
| DiagError (msg : string)       (* [diag.error(msg)] was called *)
| IsCompatible (v : string).     (* [isCompatible(v)] was called *)

(** The process as one loaded copy of the module sees it: the shared global
    object (its symbol-keyed part), the copy's own [instanceId] and
    [SCOPED_OPENTELEMETRY_API_KEY], and the events so far.  Each symbol owns
    its table: the module stores a table under a key only when it has just
    built it from an object literal, so two keys never share one object. *)
Record State := mkState {
  _global : gmap string OTelGlobalAPI;
  instanceId : N;
  SCOPED_OPENTELEMETRY_API_KEY : option string;
  trace : list Event
}.

(** The diagnostic logger handed to the registry.  A call either returns
    ([None]) or throws ([Some e]); which one may depend on the message and on
    everything that happened before. *)
Record DiagLogger := mkDiag {
  debug : string -> list Event -> option string;
  error : string -> list Event -> option string
}.

Definition returns_normally (diag : DiagLogger) : Prop :=
  forall msg tr, debug diag msg tr = None /\ error diag msg tr = None.

(** ** The monad: state, and an exception that aborts the call *)

Inductive Outcome (A : Type) :=
| Returned (a : A) (s : State)
| Thrown (e : string) (s : State).
Arguments Returned {A} a s.
Arguments Thrown {A} e s.

Definition M (A : Type) : Type := State -> Outcome A.

Definition ret {A} (a : A) : M A := fun s => Returned a s.

Definition bind {A B} (m : M A) (f : A -> M B) : M B :=
  fun s =>
    match m s with
    | Returned a s' => f a s'
    | Thrown e s' => Thrown e s'
    end.

(** [throw e]. *)
Definition throw {A} (e : string) : M A := fun s => Thrown e s.

(** The exception of an assignment that strict code cannot carry out. *)
Definition TypeError : string := "TypeError".

Global Instance M_ret : MRet M := @ret.
Global Instance M_bind : MBind M := fun A B f m => bind m f.

Definition final {A} (o : Outcome A) : State :=
  match o with
  | Returned _ s => s
  | Thrown _ s => s
  end.

Definition result {A} (o : Outcome A) : option A :=
  match o with
  | Returned a _ => Some a
  | Thrown _ _ => None
  end.

Definition read_global (key : string) : M (option OTelGlobalAPI) :=
  fun s => Returned (_global s !! key) s.

Definition set_global (g : gmap string OTelGlobalAPI) (s : State) : State :=
  {| _global := g;
     instanceId := instanceId s;
     SCOPED_OPENTELEMETRY_API_KEY := SCOPED_OPENTELEMETRY_API_KEY s;
     trace := trace s |}.

(** [_global[key] = api]. *)
Definition write_global (key : string) (api : OTelGlobalAPI) : M unit :=
  fun s => Returned tt (set_global (<[key := api]> (_global s)) s).

Definition read_instanceId : M N :=
  fun s => Returned (instanceId s) s.

Definition read_scoped_key : M (option string) :=
  fun s => Returned (SCOPED_OPENTELEMETRY_API_KEY s) s.

Definition write_scoped_key (key : string) : M unit :=
  fun s => Returned tt
    {| _global := _global s;
       instanceId := instanceId s;
       SCOPED_OPENTELEMETRY_API_KEY := Some key;
       trace := trace s |}.

Definition emit (ev : Event) (s : State) : State :=
  {| _global := _global s;
     instanceId := instanceId s;
     SCOPED_OPENTELEMETRY_API_KEY := SCOPED_OPENTELEMETRY_API_KEY s;
     trace := trace s ++ [ev] |}.

(** [diag.debug(msg)] and [diag.error(msg)]: the call is made, then the
    logger returns or throws. *)
Definition call_debug (diag : DiagLogger) (msg : string) : M unit :=
  fun s =>
    match debug diag msg (trace s) with
    | None => Returned tt (emit (DiagDebug msg) s)
    | Some e => Thrown e (emit (DiagDebug msg) s)
    end.

Definition call_error (diag : DiagLogger) (msg : string) : M unit :=
  fun s =>
    match error diag msg (trace s) with
    | None => Returned tt (emit (DiagError msg) s)
    | Some e => Thrown e (emit (DiagError msg) s)
    end.

(** [VERSION.split('.')[0]]: the text before the first dot. *)
Fixpoint split_dot_0 (s : string) : string :=
  match s with
  | EmptyString => EmptyString
  | String c r => if Ascii.eqb c "."%char then EmptyString else String c (split_dot_0 r)
  end.

(** The text holds no dot. *)
Fixpoint no_dot (s : string) : bool :=
  match s with
  | EmptyString => true
  | String c r => negb (Ascii.eqb c "."%char) && no_dot r
  end.

(** ** Concrete inputs for the examples *)

(** A build of version 1.4.0, and an older build of the same major version. *)
Definition sample_VERSION : string := "1.4.0".
Definition older_VERSION : string := "1.3.0".

(** A compatibility rule: the stored version has major version 1. *)
Definition sample_isCompatible (v : string) : bool := String.prefix "1." v.

(** An engine whose stack text starts with the message. *)
Definition sample_Error_stack (message : string) : option string :=
  Some ("Error: " +:+ message).

(** A logger whose calls return. *)
Definition quiet_logger : DiagLogger :=
  {| debug := fun _ _ => None; error := fun _ _ => None |}.

(** A logger whose calls throw. *)
Definition broken_logger : DiagLogger :=
  {| debug := fun _ _ => Some "logger failed";
     error := fun _ _ => Some "logger failed" |}.

(** Two clock readings with the same millisecond part. *)
Definition sample_now : N := 1700000000123.
Definition later_now : N := 1700000005123.

(** ** The module *)

Section GlobalUtils.

(** [VERSION], imported from [../version]. *)
Variable VERSION : string.

(** [isCompatible], imported from [./semver]: a pure predicate on version
    strings. *)
Variable isCompatible : string -> bool.

(** [err.stack] of [new Error(message)]: engine-specific text, possibly
    missing. *)
Variable Error_stack : string -> option string.

Definition major : string := split_dot_0 VERSION.

Definition GLOBAL_OPENTELEMETRY_API_KEY : string :=
  Symbol_for ("opentelemetry.js.api." +:+ major).

(** The symbol [registerGlobal] stores in [SCOPED_OPENTELEMETRY_API_KEY]. *)
Definition scoped_key_of (id : N) : string :=
  Symbol_for ("opentelemetry.js.api." +:+ major +:+ ".instance." +:+ pretty id).

(** Loading a copy of the module into a process runs its top-level
    statements: [instanceId] is initialised by
    [new Date().getMilliseconds()], the part below the second of a clock
    that reads [now] milliseconds since the epoch, and
    [SCOPED_OPENTELEMETRY_API_KEY] is declared without a value.  The global
    object and the events of the process carry over. *)
Definition load_module (now : N) (process : State) : State :=
  {| _global := _global process;
     instanceId := (now mod 1000)%N;
     SCOPED_OPENTELEMETRY_API_KEY := None;
     trace := trace process ++ [NewDate now] |}.

(** A process in which nothing has run yet; the module fields mean nothing
    until a copy is loaded. *)
Definition empty_process : State :=
  {| _global := ∅; instanceId := 0%N;
     SCOPED_OPENTELEMETRY_API_KEY := None; trace := [] |}.

(** [err.stack || err.message]. *)
Definition stack_or_message (message : string) : string :=
  match Error_stack message with
  | Some st => if String.eqb st "" then message else st
  | None => message
  end.

Definition call_isCompatible (v : string) : M bool :=
  fun s => Returned (isCompatible v) (emit (IsCompatible v) s).

(** Lines 41-59 of [registerGlobal]: the scoped key is derived on the first
    call that allows an override, and the instance goes into the table
    under it. *)
Definition register_scoped (type : Key) (instance : Indexed type)
    (diag : DiagLogger) (allowOverride : bool) : M unit :=
  key0 ← read_scoped_key;
  id ← read_instanceId;
  (if allowOverride && negb (bool_decide (is_Some key0))
   then write_scoped_key (scoped_key_of id)
   else ret tt) ;;
  key ← read_scoped_key;
  match allowOverride, key with
  | true, Some k =>
      existing ← read_global k;
      let scopedApi := nullish existing (fresh_table VERSION) in
      write_global k scopedApi ;;
      write_global k (set_prop scopedApi type instance) ;;
      call_debug diag
        ("@opentelemetry/api: Registered scoped instance " +:+ pretty id
         +:+ " for " +:+ Key_name type +:+ " v" +:+ VERSION +:+ ".")
  | _, _ => ret tt
  end.

(** Lines 61-90 of [registerGlobal]: the table under the global key. *)
Definition register_primary (type : Key) (instance : Indexed type)
    (diag : DiagLogger) (allowOverride : bool) : M bool :=
  existing ← read_global GLOBAL_OPENTELEMETRY_API_KEY;
  let api := nullish existing (fresh_table VERSION) in
  write_global GLOBAL_OPENTELEMETRY_API_KEY api ;;
  if negb allowOverride && truthy_prop api type then
    call_error diag
      (stack_or_message
         ("@opentelemetry/api: Attempted duplicate registration of API: "
          +:+ Key_name type)) ;;
    ret false
  else if negb (bool_decide (version api = Some VERSION)) then
    call_error diag
      (stack_or_message
         ("@opentelemetry/api: Registration of version v" +:+ version_text api
          +:+ " for " +:+ Key_name type
          +:+ " does not match previously registered API v" +:+ VERSION)) ;;
    ret false
  else
    write_global GLOBAL_OPENTELEMETRY_API_KEY (set_prop api type instance) ;;
    call_debug diag
      ("@opentelemetry/api: Registered a global for " +:+ Key_name type
       +:+ " v" +:+ VERSION +:+ ".") ;;
    ret true.

Definition registerGlobal (type : Key) (instance : Indexed type)
    (diag : DiagLogger) (allowOverride : bool) : M bool :=
  register_scoped type instance diag allowOverride ;;
  register_primary type instance diag allowOverride.

(** *** Frozen tables

    [registerGlobal] above takes the two property assignments, lines 54 and
    85, to succeed, as they do on an ordinary object.  The module is strict
    code, in which assigning to a property of a frozen object
    ([Object.freeze]) throws a TypeError.  [registerGlobal_strict] is
    [registerGlobal] with that case: [frozen] holds the keys of the global
    object whose table some other code has frozen.  The module freezes
    nothing itself, and the table it builds from an object literal, for a key
    that had none, is not frozen. *)

(** [api[type] = instance] in strict code, for the table [api] that
    [_global[key] ?? { version: VERSION }] gave, [existing] being what was
    under the key. *)
Definition assign_prop (frozen : gset string) (key : string)
    (existing : option OTelGlobalAPI) (api : OTelGlobalAPI) (type : Key)
    (instance : Indexed type) : M unit :=
  if bool_decide (key ∈ frozen) && bool_decide (is_Some existing)
  then throw TypeError
  else write_global key (set_prop api type instance).

(** Lines 41-59. *)
Definition register_scoped_strict (frozen : gset string) (type : Key)
    (instance : Indexed type) (diag : DiagLogger) (allowOverride : bool) : M unit :=
  key0 ← read_scoped_key;
  id ← read_instanceId;
  (if allowOverride && negb (bool_decide (is_Some key0))
   then write_scoped_key (scoped_key_of id)
   else ret tt) ;;
  key ← read_scoped_key;
  match allowOverride, key with
  | true, Some k =>
      existing ← read_global k;
      let scopedApi := nullish existing (fresh_table VERSION) in
      write_global k scopedApi ;;
      assign_prop frozen k existing scopedApi type instance ;;
      call_debug diag
        ("@opentelemetry/api: Registered scoped instance " +:+ pretty id
         +:+ " for " +:+ Key_name type +:+ " v" +:+ VERSION +:+ ".")
  | _, _ => ret tt
  end.

(** Lines 61-90. *)
Definition register_primary_strict (frozen : gset string) (type : Key)
    (instance : Indexed type) (diag : DiagLogger) (allowOverride : bool) : M bool :=
  existing ← read_global GLOBAL_OPENTELEMETRY_API_KEY;
  let api := nullish existing (fresh_table VERSION) in
  write_global GLOBAL_OPENTELEMETRY_API_KEY api ;;
  if negb allowOverride && truthy_prop api type then
    call_error diag
      (stack_or_message
         ("@opentelemetry/api: Attempted duplicate registration of API: "
          +:+ Key_name type)) ;;
    ret false
  else if negb (bool_decide (version api = Some VERSION)) then
    call_error diag
      (stack_or_message
         ("@opentelemetry/api: Registration of version v" +:+ version_text api
          +:+ " for " +:+ Key_name type
          +:+ " does not match previously registered API v" +:+ VERSION)) ;;
    ret false
  else
    assign_prop frozen GLOBAL_OPENTELEMETRY_API_KEY existing api type instance ;;
    call_debug diag
      ("@opentelemetry/api: Registered a global for " +:+ Key_name type
       +:+ " v" +:+ VERSION +:+ ".") ;;
    ret true.

Definition registerGlobal_strict (frozen : gset string) (type : Key)
    (instance : Indexed type) (diag : DiagLogger) (allowOverride : bool) : M bool :=
  register_scoped_strict frozen type instance diag allowOverride ;;
  register_primary_strict frozen type instance diag allowOverride.

(** [undefined] at the result type of [getGlobal]. *)
Definition undefined (type : Key) : IndexedOrUndefined type :=
  match type with
  | K_version => None
  | K_api _ => None
  end.

Definition getGlobal (type : Key) : M (IndexedOrUndefined type) :=
  table ← read_global GLOBAL_OPENTELEMETRY_API_KEY;
  let globalVersion := table ≫= version in
  reject ← match globalVersion with
           | None => ret true
           | Some v =>
               if String.eqb v "" then ret true
               else (ok ← call_isCompatible v; ret (negb ok))
           end;
  if (reject : bool) then ret (undefined type)
  else
    table' ← read_global GLOBAL_OPENTELEMETRY_API_KEY;
    ret (match table' with
         | Some api => get_prop api type
         | None => undefined type
         end).

Definition unregisterGlobal (type : Key) (diag : DiagLogger) : M unit :=
  call_debug diag
    ("@opentelemetry/api: Unregistering a global for " +:+ Key_name type
     +:+ " v" +:+ VERSION +:+ ".") ;;
  api ← read_global GLOBAL_OPENTELEMETRY_API_KEY;
  match api with
  | Some a => write_global GLOBAL_OPENTELEMETRY_API_KEY (delete_prop a type)
  | None => ret tt
  end.

(** ** Runs of calls

    What a caller can do with the registry through one copy of the module:
    the three functions, applied to the five API names.  A call that throws
    leaves the state it had reached; the caller may go on. *)
Inductive Call :=
| CallRegister (c : Capability) (instance : option Instance)
    (diag : DiagLogger) (allowOverride : bool)
| CallGet (c : Capability)
| CallUnregister (c : Capability) (diag : DiagLogger).

Definition step (s : State) (call : Call) : State :=
  match call with
  | CallRegister c instance diag allowOverride =>
      final (registerGlobal (K_api c) instance diag allowOverride s)
  | CallGet c => final (getGlobal (K_api c) s)
  | CallUnregister c diag => final (unregisterGlobal (K_api c) diag s)
  end.

Definition run (calls : list Call) (s : State) : State :=
  foldl step s calls.

(** How often a trace read the clock. *)
Definition is_clock_read (ev : Event) : bool :=
  match ev with
  | NewDate _ => true
  | _ => false
  end.

Definition clock_reads (tr : list Event) : nat :=
  length (List.filter is_clock_read tr).

(** How often a trace called [diag.error]. *)
Definition error_calls (tr : list Event) : nat :=
  length (List.filter (fun ev => match ev with DiagError _ => true | _ => false end) tr).

(** The invariant of the module variable: it is unset, or holds the symbol
    derived from this copy's [instanceId]. *)
Definition module_invariant (s : State) : Prop :=
  match SCOPED_OPENTELEMETRY_API_KEY s with
  | None => True
  | Some k => k = scoped_key_of (instanceId s)
  end.

(** The version stamp of the table under a key, if there is one. *)
Definition stamp (s : State) (key : string) : option (option string) :=
  version <$> _global s !! key.

(** ** Notions used by the statements and proofs *)

(** The scoped key once a call has allowed an override: the one the module
    variable holds already, or else the one derived from [instanceId]. *)
Definition scoped_key_now (s : State) : string :=
  nullish (SCOPED_OPENTELEMETRY_API_KEY s) (scoped_key_of (instanceId s)).

(** The state in which the scoped phase calls [diag.debug]: the key is set
    and the instance is written into the table under it. *)
Definition scoped_written (type : Key) (instance : Indexed type) (s : State) : State :=
  let k := scoped_key_now s in
  let scopedApi := nullish (_global s !! k) (fresh_table VERSION) in
  {| _global := <[k := set_prop scopedApi type instance]> (<[k := scopedApi]> (_global s));
     instanceId := instanceId s;
     SCOPED_OPENTELEMETRY_API_KEY := Some k;
     trace := trace s |}.

(** The table the primary phase works on, and the two states it can end in:
    the table fetched (created if it was missing), or the instance written
    into it. *)
Definition primary_table (s : State) : OTelGlobalAPI :=
  nullish (_global s !! GLOBAL_OPENTELEMETRY_API_KEY) (fresh_table VERSION).

Definition primary_fetched (s : State) : State :=
  set_global (<[GLOBAL_OPENTELEMETRY_API_KEY := primary_table s]> (_global s)) s.

Definition primary_written (type : Key) (instance : Indexed type) (s : State) : State :=
  set_global
    (<[GLOBAL_OPENTELEMETRY_API_KEY := set_prop (primary_table s) type instance]>
       (_global (primary_fetched s))) s.

(** What [getGlobal] hands out, as a function of the global object. *)
Definition visible (type : Key) (g : gmap string OTelGlobalAPI) : IndexedOrUndefined type :=
  match g !! GLOBAL_OPENTELEMETRY_API_KEY with
  | Some api =>
      match version api with
      | Some v =>
          if String.eqb v "" then undefined type
          else if isCompatible v then get_prop api type
          else undefined type
      | None => undefined type
      end
  | None => undefined type
  end.

(** No registration of [c] has happened: the slot is missing, and the
    table, if there is one, carries this build's version. *)
Definition no_prior_registration (c : Capability) (s : State) : Prop :=
  match _global s !! GLOBAL_OPENTELEMETRY_API_KEY with
  | None => True
  | Some t => version t = Some VERSION /\ slots t !! c = None
  end.

(** The primary table is missing or carries this build's version: the
    version check of [registerGlobal] will pass. *)
Definition primary_usable (s : State) : Prop :=
  match _global s !! GLOBAL_OPENTELEMETRY_API_KEY with
  | None => True
  | Some t => version t = Some VERSION
  end.

(** [preserved s s']: from [s] to [s'] the copy's [instanceId] is the same,
    the clock was not read, and every table of the global object is still
    there with the version it had. *)
Definition preserved (s s' : State) : Prop :=
  instanceId s' = instanceId s
  /\ clock_reads (trace s') = clock_reads (trace s)
  /\ forall key t, _global s !! key = Some t ->
       exists t', _global s' !! key = Some t' /\ version t' = version t.

(** The state [unregisterGlobal] returns in, if [diag.debug] returned in
    [s]. *)
Definition slot_deleted (type : Key) (s : State) : State :=
  match _global s !! GLOBAL_OPENTELEMETRY_API_KEY with
  | Some a =>
      set_global (<[GLOBAL_OPENTELEMETRY_API_KEY := delete_prop a type]> (_global s)) s
  | None => s
  end.

(** ** Basic facts *)

Lemma append_self_nil (s x : string) : s = s +:+ x -> x = "".
Proof.
  induction s as [|a s IH].
  - intros H. symmetry. exact H.
  - change (String a s +:+ x) with (String a (s +:+ x)). intros H.
    injection H as H. auto.
Qed.

(** The two symbols never coincide. *)
Lemma keys_distinct (id : N) : GLOBAL_OPENTELEMETRY_API_KEY <> scoped_key_of id.
Proof.
  unfold GLOBAL_OPENTELEMETRY_API_KEY, scoped_key_of, Symbol_for.
  intros H. apply (inj (String.app _)) in H.
  apply append_self_nil in H. discriminate H.
Qed.

Lemma set_global_same (s : State) : set_global (_global s) s = s.
Proof. destruct s; reflexivity. Qed.

Lemma call_debug_normal diag msg s :
  returns_normally diag ->
  call_debug diag msg s = Returned tt (emit (DiagDebug msg) s).
Proof. intros Hd. unfold call_debug. destruct (Hd msg (trace s)) as [-> _]. reflexivity. Qed.

Lemma call_error_normal diag msg s :
  returns_normally diag ->
  call_error diag msg s = Returned tt (emit (DiagError msg) s).
Proof. intros Hd. unfold call_error. destruct (Hd msg (trace s)) as [_ ->]. reflexivity. Qed.

Lemma register_scoped_off type instance diag s :
  register_scoped type instance diag false s = Returned tt s.
Proof. reflexivity. Qed.

Lemma register_scoped_on type instance diag s :
  exists msg,
    register_scoped type instance diag true s
    = call_debug diag msg (scoped_written type instance s).
Proof.
  eexists. unfold register_scoped, scoped_written, scoped_key_now.
  destruct s as [g id [k|] tr]; reflexivity.
Qed.

(** The three ways through the primary phase. *)
Lemma register_primary_cases type instance diag allowOverride s :
  exists msg,
    ((negb allowOverride && truthy_prop (primary_table s) type = true
      \/ version (primary_table s) <> Some VERSION)
     /\ register_primary type instance diag allowOverride s
        = (call_error diag msg ;; ret false) (primary_fetched s))
    \/ (negb allowOverride && truthy_prop (primary_table s) type = false
        /\ version (primary_table s) = Some VERSION
        /\ register_primary type instance diag allowOverride s
           = (call_debug diag msg ;; ret true) (primary_written type instance s)).
Proof.
  unfold register_primary, primary_written, primary_fetched.
  fold (primary_table s).
  destruct (negb allowOverride && truthy_prop (primary_table s) type) eqn:Hdup.
  - eexists. left. split; [left; reflexivity|].
    unfold mbind, M_bind, bind, read_global, write_global. cbn.
    fold (primary_table s). rewrite Hdup. reflexivity.
  - destruct (decide (version (primary_table s) = Some VERSION)) as [Hv|Hv].
    + eexists. right. split; [reflexivity|]. split; [exact Hv|].
      unfold mbind, M_bind, bind, read_global, write_global. cbn.
      fold (primary_table s). rewrite Hdup.
      rewrite (bool_decide_eq_true_2 _ Hv). reflexivity.
    + eexists. left. split; [right; exact Hv|].
      unfold mbind, M_bind, bind, read_global, write_global. cbn.
      fold (primary_table s). rewrite Hdup.
      rewrite (bool_decide_eq_false_2 _ Hv). reflexivity.
Qed.

Lemma error_then_false diag msg s :
  returns_normally diag ->
  (call_error diag msg ;; ret false) s = Returned false (emit (DiagError msg) s).
Proof.
  intros Hd. unfold mbind, M_bind, bind.
  rewrite (call_error_normal _ _ _ Hd). reflexivity.
Qed.

Lemma debug_then_true diag msg s :
  returns_normally diag ->
  (call_debug diag msg ;; ret true) s = Returned true (emit (DiagDebug msg) s).
Proof.
  intros Hd. unfold mbind, M_bind, bind.
  rewrite (call_debug_normal _ _ _ Hd). reflexivity.
Qed.

Lemma primary_fetched_present s t :
  _global s !! GLOBAL_OPENTELEMETRY_API_KEY = Some t ->
  primary_table s = t /\ primary_fetched s = s.
Proof.
  intros Ht. unfold primary_fetched, primary_table. rewrite Ht. cbn.
  split; [reflexivity|]. rewrite (insert_id _ _ _ Ht).
  apply set_global_same.
Qed.

(** [getGlobal] returns the visible value and at most records its call of
    [isCompatible]. *)
Lemma getGlobal_spec type s :
  getGlobal type s = Returned (visible type (_global s)) s
  \/ exists v, getGlobal type s
               = Returned (visible type (_global s)) (emit (IsCompatible v) s).
Proof.
  unfold getGlobal, visible, mbind, M_bind, bind, read_global, ret, call_isCompatible.
  cbn. destruct (_global s !! GLOBAL_OPENTELEMETRY_API_KEY) as [api|] eqn:Hg; cbn.
  - destruct (version api) as [v|]; cbn; [|left; reflexivity].
    destruct (String.eqb v ""); cbn; [left; reflexivity|].
    right. exists v. destruct (isCompatible v); cbn; [|reflexivity].
    rewrite Hg. reflexivity.
  - left. reflexivity.
Qed.

Lemma getGlobal_result type s :
  result (getGlobal type s) = Some (visible type (_global s)).
Proof. destruct (getGlobal_spec type s) as [-> | [v ->]]; reflexivity. Qed.

Lemma getGlobal_final type s :
  final (getGlobal type s) = s
  \/ exists v, final (getGlobal type s) = emit (IsCompatible v) s.
Proof. destruct (getGlobal_spec type s) as [-> | [v ->]]; [left|right; exists v]; reflexivity. Qed.

Lemma scoped_key_now_distinct s :
  module_invariant s -> scoped_key_now s <> GLOBAL_OPENTELEMETRY_API_KEY.
Proof.
  unfold module_invariant, scoped_key_now.
  destruct (SCOPED_OPENTELEMETRY_API_KEY s) as [k|]; cbn.
  - intros -> H. exact (keys_distinct _ (eq_sym H)).
  - intros _ H. exact (keys_distinct _ (eq_sym H)).
Qed.

Lemma scoped_written_primary type instance s :
  module_invariant s ->
  _global (scoped_written type instance s) !! GLOBAL_OPENTELEMETRY_API_KEY
  = _global s !! GLOBAL_OPENTELEMETRY_API_KEY.
Proof.
  intros Hinv. pose proof (scoped_key_now_distinct s Hinv) as Hne.
  unfold scoped_written. cbn.
  rewrite !lookup_insert_ne by exact Hne. reflexivity.
Qed.

Lemma visible_written c i api g :
  VERSION <> "" -> isCompatible VERSION = true ->
  version api = Some VERSION ->
  visible (K_api c)
    (<[GLOBAL_OPENTELEMETRY_API_KEY := set_prop api (K_api c) (Some i)]> g)
  = Some i.
Proof.
  intros Hne Hok Hv. unfold visible. rewrite lookup_insert_eq. cbn.
  rewrite Hv. apply String.eqb_neq in Hne. rewrite Hne, Hok.
  cbn. apply lookup_insert_eq.
Qed.

(** ** What every call preserves *)

Lemma preserved_refl s : preserved s s.
Proof. repeat split. intros key t Ht. eauto. Qed.

Lemma preserved_trans s1 s2 s3 :
  preserved s1 s2 -> preserved s2 s3 -> preserved s1 s3.
Proof.
  intros (Hi1 & Hc1 & Hg1) (Hi2 & Hc2 & Hg2). repeat split.
  - congruence.
  - congruence.
  - intros key t Ht. destruct (Hg1 key t Ht) as (t2 & Ht2 & Hv2).
    destruct (Hg2 key t2 Ht2) as (t3 & Ht3 & Hv3).
    exists t3. split; [exact Ht3 | congruence].
Qed.

Lemma clock_reads_emit ev tr :
  is_clock_read ev = false -> clock_reads (tr ++ [ev]) = clock_reads tr.
Proof.
  intros Hev. unfold clock_reads. rewrite List.filter_app. cbn.
  rewrite Hev, app_nil_r. reflexivity.
Qed.

Lemma preserved_emit ev s :
  is_clock_read ev = false -> preserved s (emit ev s).
Proof.
  intros Hev. repeat split.
  - cbn. apply clock_reads_emit. exact Hev.
  - intros key t Ht. cbn. eauto.
Qed.

Lemma version_set_prop api c instance :
  version (set_prop api (K_api c) instance) = version api.
Proof. destruct instance; reflexivity. Qed.

Lemma preserved_scoped_written c instance s :
  preserved s (scoped_written (K_api c) instance s).
Proof.
  repeat split. intros key t Ht. cbn -[set_prop].
  destruct (decide (scoped_key_now s = key)) as [<- | Hne].
  - rewrite lookup_insert_eq. eexists. split; [reflexivity|].
    rewrite version_set_prop, Ht. reflexivity.
  - rewrite !lookup_insert_ne by exact Hne. eauto.
Qed.

Lemma preserved_primary_fetched s : preserved s (primary_fetched s).
Proof.
  repeat split. intros key t Ht. cbn.
  destruct (decide (GLOBAL_OPENTELEMETRY_API_KEY = key)) as [<- | Hne].
  - rewrite lookup_insert_eq. eexists. split; [reflexivity|].
    unfold primary_table. rewrite Ht. reflexivity.
  - rewrite lookup_insert_ne by exact Hne. eauto.
Qed.

Lemma preserved_primary_written c instance s :
  preserved s (primary_written (K_api c) instance s).
Proof.
  repeat split. intros key t Ht. cbn -[set_prop].
  destruct (decide (GLOBAL_OPENTELEMETRY_API_KEY = key)) as [<- | Hne].
  - rewrite lookup_insert_eq. eexists. split; [reflexivity|].
    rewrite version_set_prop. unfold primary_table. rewrite Ht. reflexivity.
  - rewrite !lookup_insert_ne by exact Hne. eauto.
Qed.

Lemma final_error_then (b : bool) diag msg s :
  final ((call_error diag msg ;; ret b) s) = emit (DiagError msg) s.
Proof.
  unfold mbind, M_bind, bind, call_error.
  destruct (error diag msg (trace s)); reflexivity.
Qed.

Lemma final_debug_then (b : bool) diag msg s :
  final ((call_debug diag msg ;; ret b) s) = emit (DiagDebug msg) s.
Proof.
  unfold mbind, M_bind, bind, call_debug.
  destruct (debug diag msg (trace s)); reflexivity.
Qed.

(** Where the primary phase can stop. *)
Lemma register_primary_final type instance diag allowOverride s :
  exists msg,
    final (register_primary type instance diag allowOverride s)
    = emit (DiagError msg) (primary_fetched s)
    \/ final (register_primary type instance diag allowOverride s)
       = emit (DiagDebug msg) (primary_written type instance s).
Proof.
  destruct (register_primary_cases type instance diag allowOverride s)
    as [msg [[_ ->] | (_ & _ & ->)]]; exists msg.
  - left. apply final_error_then.
  - right. apply final_debug_then.
Qed.

(** Where [registerGlobal] can stop: in the scoped phase, when
    [diag.debug] throws there, or where the primary phase stops. *)
Lemma registerGlobal_final type instance diag allowOverride s :
  exists s0,
    (allowOverride = false /\ s0 = s
     \/ allowOverride = true
        /\ exists msg, s0 = emit (DiagDebug msg) (scoped_written type instance s))
    /\ (allowOverride = true
        /\ final (registerGlobal type instance diag allowOverride s) = s0
        \/ final (registerGlobal type instance diag allowOverride s)
           = final (register_primary type instance diag allowOverride s0)).
Proof.
  unfold registerGlobal, mbind, M_bind, bind. destruct allowOverride.
  - destruct (register_scoped_on type instance diag s) as [m ->].
    exists (emit (DiagDebug m) (scoped_written type instance s)).
    split; [right; eauto|].
    unfold call_debug.
    destruct (debug diag m (trace (scoped_written type instance s))).
    + left. split; reflexivity.
    + right. reflexivity.
  - exists s. rewrite register_scoped_off. split; [left; auto | right; reflexivity].
Qed.

Lemma register_primary_preserved c instance diag allowOverride s :
  preserved s (final (register_primary (K_api c) instance diag allowOverride s)).
Proof.
  destruct (register_primary_final (K_api c) instance diag allowOverride s)
    as [msg [-> | ->]].
  - eapply preserved_trans; [apply preserved_primary_fetched|].
    apply preserved_emit. reflexivity.
  - eapply preserved_trans; [apply preserved_primary_written|].
    apply preserved_emit. reflexivity.
Qed.

Lemma registerGlobal_preserved c instance diag allowOverride s :
  preserved s (final (registerGlobal (K_api c) instance diag allowOverride s)).
Proof.
  destruct (registerGlobal_final (K_api c) instance diag allowOverride s)
    as (s0 & Hs0 & Hfin).
  assert (H0 : preserved s s0).
  { destruct Hs0 as [[_ ->] | [_ [m ->]]].
    - apply preserved_refl.
    - eapply preserved_trans; [apply preserved_scoped_written|].
      apply preserved_emit. reflexivity. }
  destruct Hfin as [[_ ->] | ->]; [exact H0|].
  eapply preserved_trans; [exact H0 | apply register_primary_preserved].
Qed.

Lemma getGlobal_preserved type s : preserved s (final (getGlobal type s)).
Proof.
  destruct (getGlobal_final type s) as [-> | [v ->]].
  - apply preserved_refl.
  - apply preserved_emit. reflexivity.
Qed.

(** Where [unregisterGlobal] stops. *)
Lemma unregisterGlobal_cases type diag s :
  exists msg,
    match debug diag msg (trace s) with
    | None => unregisterGlobal type diag s
              = Returned tt (slot_deleted type (emit (DiagDebug msg) s))
    | Some e => unregisterGlobal type diag s = Thrown e (emit (DiagDebug msg) s)
    end.
Proof.
  exists ("@opentelemetry/api: Unregistering a global for " +:+ Key_name type
          +:+ " v" +:+ VERSION +:+ ".").
  unfold unregisterGlobal, mbind, M_bind, bind, call_debug, slot_deleted.
  destruct (debug diag _ (trace s)) eqn:Hd; [reflexivity|].
  unfold read_global, write_global, ret. cbn.
  destruct (_global s !! GLOBAL_OPENTELEMETRY_API_KEY); reflexivity.
Qed.

Lemma preserved_slot_deleted c s : preserved s (slot_deleted (K_api c) s).
Proof.
  unfold slot_deleted.
  destruct (_global s !! GLOBAL_OPENTELEMETRY_API_KEY) as [a|] eqn:Ha;
    [|apply preserved_refl].
  repeat split. intros key t Ht. cbn.
  destruct (decide (GLOBAL_OPENTELEMETRY_API_KEY = key)) as [<- | Hne].
  - rewrite lookup_insert_eq. eexists. split; [reflexivity|].
    cbn. congruence.
  - rewrite lookup_insert_ne by exact Hne. eauto.
Qed.

Lemma unregisterGlobal_preserved c diag s :
  preserved s (final (unregisterGlobal (K_api c) diag s)).
Proof.
  destruct (unregisterGlobal_cases (K_api c) diag s) as [msg H].
  destruct (debug diag msg (trace s)); rewrite H; cbn [final].
  - apply preserved_emit. reflexivity.
  - apply (preserved_trans _ (emit (DiagDebug msg) s)).
    + apply preserved_emit. reflexivity.
    + apply preserved_slot_deleted.
Qed.

Lemma step_preserved s call : preserved s (step s call).
Proof.
  destruct call; cbn [step].
  - apply registerGlobal_preserved.
  - apply getGlobal_preserved.
  - apply unregisterGlobal_preserved.
Qed.

Lemma run_preserved calls s : preserved s (run calls s).
Proof.
  revert s. induction calls as [|call calls IH]; intros s; cbn.
  - apply preserved_refl.
  - eapply preserved_trans; [apply step_preserved | apply IH].
Qed.

Lemma preserved_stamp s s' key v :
  preserved s s' -> stamp s key = Some v -> stamp s' key = Some v.
Proof.
  intros (_ & _ & Hg). unfold stamp.
  destruct (_global s !! key) as [t|] eqn:Ht; cbn; [|discriminate].
  intros [= <-]. destruct (Hg key t Ht) as (t' & -> & Hv). cbn.
  rewrite Hv. reflexivity.
Qed.

Lemma error_then_returned (b b' : bool) diag msg s s' :
  (call_error diag msg ;; ret b) s = Returned b' s' ->
  b' = b /\ s' = emit (DiagError msg) s.
Proof.
  unfold mbind, M_bind, bind, call_error, ret.
  destruct (error diag msg (trace s)); [discriminate|].
  intros [= <- <-]. auto.
Qed.

Lemma debug_then_returned (b b' : bool) diag msg s s' :
  (call_debug diag msg ;; ret b) s = Returned b' s' ->
  b' = b /\ s' = emit (DiagDebug msg) s.
Proof.
  unfold mbind, M_bind, bind, call_debug, ret.
  destruct (debug diag msg (trace s)); [discriminate|].
  intros [= <- <-]. auto.
Qed.

(** How the module variable moves. *)
Lemma register_primary_scoped_key type instance diag allowOverride s :
  SCOPED_OPENTELEMETRY_API_KEY
    (final (register_primary type instance diag allowOverride s))
  = SCOPED_OPENTELEMETRY_API_KEY s.
Proof.
  destruct (register_primary_final type instance diag allowOverride s)
    as [msg [-> | ->]]; reflexivity.
Qed.

Lemma registerGlobal_scoped_key type instance diag allowOverride s :
  SCOPED_OPENTELEMETRY_API_KEY
    (final (registerGlobal type instance diag allowOverride s))
  = if allowOverride then Some (scoped_key_now s)
    else SCOPED_OPENTELEMETRY_API_KEY s.
Proof.
  destruct (registerGlobal_final type instance diag allowOverride s)
    as (s0 & Hs0 & Hfin).
  assert (H0 : SCOPED_OPENTELEMETRY_API_KEY s0
               = if allowOverride then Some (scoped_key_now s)
                 else SCOPED_OPENTELEMETRY_API_KEY s).
  { destruct Hs0 as [[-> ->] | [-> [m ->]]]; reflexivity. }
  destruct Hfin as [[_ ->] | ->]; [exact H0|].
  rewrite register_primary_scoped_key. exact H0.
Qed.

Lemma unregisterGlobal_scoped_key type diag s :
  SCOPED_OPENTELEMETRY_API_KEY (final (unregisterGlobal type diag s))
  = SCOPED_OPENTELEMETRY_API_KEY s.
Proof.
  destruct (unregisterGlobal_cases type diag s) as [msg H].
  destruct (debug diag msg (trace s)); rewrite H; cbn [final]; [reflexivity|].
  unfold slot_deleted. cbn.
  destruct (_global s !! GLOBAL_OPENTELEMETRY_API_KEY); reflexivity.
Qed.

(** A registration that does not allow an override is turned down when the
    slot is taken; nothing but the trace changes. *)
Lemma duplicate_rejected c (i1 : Instance) (i2 : option Instance) diag s t :
  returns_normally diag ->
  _global s !! GLOBAL_OPENTELEMETRY_API_KEY = Some t ->
  slots t !! c = Some i1 ->
  exists msg,
    registerGlobal (K_api c) i2 diag false s
    = Returned false (emit (DiagError msg) s).
Proof.
  intros Hd Ht Hc.
  destruct (primary_fetched_present s t Ht) as [Htab Hsame].
  unfold registerGlobal, mbind, M_bind, bind.
  rewrite register_scoped_off.
  destruct (register_primary_cases (K_api c) i2 diag false s)
    as [msg [[_ ->] | (Hdup & _ & _)]].
  - exists msg. rewrite Hsame. apply error_then_false. exact Hd.
  - exfalso. rewrite Htab in Hdup. cbn in Hdup. rewrite Hc in Hdup.
    rewrite bool_decide_eq_false in Hdup. apply Hdup. eauto.
Qed.

(** ** The claims *)

(** C1, amended: from a state without a registration of [c], after
    [registerGlobal(c, i1, diag, true)] and then
    [registerGlobal(c, i2, diag, false)], [getGlobal(c)] returns [i1]: the
    first call returns [true], sets the scoped key, and writes [i1] into the
    table under the scoped key and into the primary table as well; the
    second call is turned down as a duplicate, with an error diagnostic. *)
Theorem C1_override_registers_primary (c : Capability) (i1 i2 : Instance)
    (diag : DiagLogger) (s : State) :
  returns_normally diag ->
  VERSION <> "" ->
  isCompatible VERSION = true ->
  module_invariant s ->
  no_prior_registration c s ->
  exists s1 msg,
    registerGlobal (K_api c) (Some i1) diag true s = Returned true s1
    /\ SCOPED_OPENTELEMETRY_API_KEY s1 = Some (scoped_key_now s)
    /\ (exists t, _global s1 !! scoped_key_now s = Some t
                  /\ slots t !! c = Some i1)
    /\ (exists t, _global s1 !! GLOBAL_OPENTELEMETRY_API_KEY = Some t
                  /\ slots t !! c = Some i1)
    /\ registerGlobal (K_api c) (Some i2) diag false s1
       = Returned false (emit (DiagError msg) s1)
    /\ result (getGlobal (K_api c) (emit (DiagError msg) s1)) = Some (Some i1).
Proof.
  intros Hd Hne Hok Hinv Hfree.
  destruct (register_scoped_on (K_api c) (Some i1) diag s) as [m0 Hscoped].
  rewrite (call_debug_normal _ _ _ Hd) in Hscoped.
  set (s0 := emit (DiagDebug m0) (scoped_written (K_api c) (Some i1) s)) in *.
  assert (Hv : version (primary_table s0) = Some VERSION).
  { unfold primary_table, s0. cbn -[scoped_written].
    rewrite scoped_written_primary by exact Hinv.
    unfold no_prior_registration in Hfree.
    destruct (_global s !! GLOBAL_OPENTELEMETRY_API_KEY); cbn; [apply Hfree | reflexivity]. }
  destruct (register_primary_cases (K_api c) (Some i1) diag true s0)
    as [m1 [[[Hdup | Hbad] _] | (_ & _ & Hprim)]].
  - discriminate Hdup.
  - contradiction.
  - rewrite (debug_then_true _ _ _ Hd) in Hprim.
    set (s1 := emit (DiagDebug m1) (primary_written (K_api c) (Some i1) s0)) in *.
    assert (Hg1 : _global s1 !! GLOBAL_OPENTELEMETRY_API_KEY
                  = Some (set_prop (primary_table s0) (K_api c) (Some i1))).
    { unfold s1. cbn -[set_prop]. apply lookup_insert_eq. }
    destruct (duplicate_rejected c i1 (Some i2) diag s1 _ Hd Hg1) as [msg Hsecond].
    { cbn. apply lookup_insert_eq. }
    exists s1, msg. split; [|split; [|split; [|split; [|split]]]].
    + unfold registerGlobal, mbind, M_bind, bind. rewrite Hscoped. exact Hprim.
    + reflexivity.
    + pose proof (scoped_key_now_distinct s Hinv) as Hk.
      unfold s1, s0. cbn -[set_prop].
      rewrite !(lookup_insert_ne _ GLOBAL_OPENTELEMETRY_API_KEY)
        by (intros Heq; exact (Hk (eq_sym Heq))).
      rewrite lookup_insert_eq. eexists. split; [reflexivity|].
      cbn. apply lookup_insert_eq.
    + eexists. split; [exact Hg1|]. cbn. apply lookup_insert_eq.
    + exact Hsecond.
    + rewrite getGlobal_result. f_equal. unfold s1. cbn -[set_prop].
      apply visible_written; assumption.
Qed.

(** C2: when nothing is registered for [c] yet (the slot is missing and the
    table, if present, carries this build's version) and the compatibility
    predicate accepts the build's own version, then after
    [registerGlobal(c, i, diag, false)] an immediate [getGlobal(c)]
    returns [i]; with a logger that returns, the registration returns
    [true].  The version string of a build is assumed not to be empty. *)
Theorem C2_register_then_get (c : Capability) (i : Instance)
    (diag : DiagLogger) (s : State) :
  VERSION <> "" ->
  isCompatible VERSION = true ->
  no_prior_registration c s ->
  result (getGlobal (K_api c)
            (final (registerGlobal (K_api c) (Some i) diag false s)))
  = Some (Some i)
  /\ (returns_normally diag ->
      result (registerGlobal (K_api c) (Some i) diag false s) = Some true).
Proof.
  intros Hne Hok Hfree.
  assert (Htab : version (primary_table s) = Some VERSION
                 /\ slots (primary_table s) !! c = None).
  { unfold no_prior_registration in Hfree. unfold primary_table.
    destruct (_global s !! GLOBAL_OPENTELEMETRY_API_KEY) as [t|]; cbn.
    - exact Hfree.
    - split; [reflexivity | apply lookup_empty]. }
  destruct Htab as [Hv Hslot].
  unfold registerGlobal, mbind, M_bind, bind.
  rewrite register_scoped_off.
  destruct (register_primary_cases (K_api c) (Some i) diag false s)
    as [msg [[[Hdup | Hbad] _] | (_ & _ & ->)]].
  - exfalso. cbn in Hdup. rewrite Hslot in Hdup.
    rewrite bool_decide_eq_true in Hdup. destruct Hdup as [x Hx]. discriminate Hx.
  - contradiction.
  - split.
    + rewrite getGlobal_result, final_debug_then. f_equal. cbn -[set_prop].
      apply visible_written; assumption.
    + intros Hd. rewrite (debug_then_true _ _ _ Hd). reflexivity.
Qed.

(** C3: when [c] is registered in the primary table,
    [registerGlobal(c, i2, diag, false)] returns [false] after one call of
    [diag.error], changes nothing but the trace, and a following
    [getGlobal(c)] returns what it returned before. *)
Theorem C3_duplicate_rejected (c : Capability) (i1 : Instance)
    (i2 : option Instance) (diag : DiagLogger) (s : State) (t : OTelGlobalAPI) :
  returns_normally diag ->
  _global s !! GLOBAL_OPENTELEMETRY_API_KEY = Some t ->
  slots t !! c = Some i1 ->
  exists msg,
    registerGlobal (K_api c) i2 diag false s
    = Returned false (emit (DiagError msg) s)
    /\ result (getGlobal (K_api c) (emit (DiagError msg) s))
       = result (getGlobal (K_api c) s).
Proof.
  intros Hd Ht Hc.
  destruct (duplicate_rejected c i1 i2 diag s t Hd Ht Hc) as [msg Hreg].
  exists msg. split; [exact Hreg|].
  rewrite !getGlobal_result. reflexivity.
Qed.

(** C4: when the primary table exists and its version is not this build's
    version string, [registerGlobal] returns [false] for every property
    name, instance and policy flag, its last act is a call of [diag.error],
    and the primary table is what it was. *)
Theorem C4_version_mismatch_rejected (type : Key) (instance : Indexed type)
    (diag : DiagLogger) (allowOverride : bool) (s : State) (t : OTelGlobalAPI) :
  returns_normally diag ->
  module_invariant s ->
  _global s !! GLOBAL_OPENTELEMETRY_API_KEY = Some t ->
  version t <> Some VERSION ->
  exists s' evs msg,
    registerGlobal type instance diag allowOverride s = Returned false s'
    /\ _global s' !! GLOBAL_OPENTELEMETRY_API_KEY = Some t
    /\ trace s' = (trace s ++ evs ++ [DiagError msg])%list.
Proof.
  intros Hd Hinv Ht Hv.
  assert (Hscoped : exists s0 evs,
             register_scoped type instance diag allowOverride s = Returned tt s0
             /\ _global s0 !! GLOBAL_OPENTELEMETRY_API_KEY = Some t
             /\ trace s0 = (trace s ++ evs)%list).
  { destruct allowOverride.
    - destruct (register_scoped_on type instance diag s) as [m ->].
      rewrite (call_debug_normal _ _ _ Hd).
      eexists _, [DiagDebug m]. split; [reflexivity|]. split; [|reflexivity].
      cbn -[scoped_written]. rewrite scoped_written_primary by exact Hinv.
      exact Ht.
    - exists s, []. rewrite register_scoped_off, app_nil_r. auto. }
  destruct Hscoped as (s0 & evs & Hs0 & Ht0 & Htr0).
  destruct (primary_fetched_present s0 t Ht0) as [Htab Hsame].
  unfold registerGlobal, mbind, M_bind, bind. rewrite Hs0.
  destruct (register_primary_cases type instance diag allowOverride s0)
    as [msg [[_ ->] | (_ & Hok & _)]].
  - exists (emit (DiagError msg) s0), evs, msg.
    rewrite Hsame, (error_then_false _ _ _ Hd).
    split; [reflexivity|]. split; [exact Ht0|].
    cbn. rewrite Htr0, app_assoc. reflexivity.
  - exfalso. rewrite Htab in Hok. contradiction.
Qed.

(** C5: once the primary table exists, no run of [registerGlobal],
    [getGlobal] and [unregisterGlobal] calls on the API names changes its
    version field; and when a registration returns [true], that field is
    this build's version, then and after every further run of calls. *)
Theorem C5_version_stamp_immutable :
  (forall (calls : list Call) (s : State) (v : option string),
      stamp s GLOBAL_OPENTELEMETRY_API_KEY = Some v ->
      stamp (run calls s) GLOBAL_OPENTELEMETRY_API_KEY = Some v)
  /\ (forall (c : Capability) (instance : option Instance) (diag : DiagLogger)
             (allowOverride : bool) (s s' : State),
        registerGlobal (K_api c) instance diag allowOverride s = Returned true s' ->
        stamp s' GLOBAL_OPENTELEMETRY_API_KEY = Some (Some VERSION)
        /\ forall calls : list Call,
             stamp (run calls s') GLOBAL_OPENTELEMETRY_API_KEY
             = Some (Some VERSION)).
Proof.
  split.
  - intros calls s v Hv. exact (preserved_stamp _ _ _ _ (run_preserved calls s) Hv).
  - intros c instance diag allowOverride s s' Hreg.
    assert (Hs' : stamp s' GLOBAL_OPENTELEMETRY_API_KEY = Some (Some VERSION)).
    { unfold registerGlobal, mbind, M_bind, bind in Hreg.
      destruct (register_scoped (K_api c) instance diag allowOverride s)
        as [[] s0 | e s0]; [|discriminate].
      destruct (register_primary_cases (K_api c) instance diag allowOverride s0)
        as [msg [[_ Heq] | (_ & Hv & Heq)]]; rewrite Heq in Hreg.
      - apply error_then_returned in Hreg. destruct Hreg as [Hb _]. discriminate Hb.
      - apply debug_then_returned in Hreg. destruct Hreg as [_ ->].
        unfold stamp. cbn -[set_prop]. rewrite lookup_insert_eq. cbn -[set_prop].
        rewrite version_set_prop, Hv. reflexivity. }
    split; [exact Hs'|]. intros calls.
    exact (preserved_stamp _ _ _ _ (run_preserved calls s') Hs').
Qed.

(** C6: [unregisterGlobal(a, diag)] calls [diag.debug] first, whatever the
    state; it leaves every other entry of the global object, each scoped
    table among them, and the version field of the primary table as they
    were.  With a logger that returns, [getGlobal(a)] then returns
    [undefined], and [getGlobal(b)] for another API name [b] returns what
    it returned before. *)
Theorem C6_unregister_one_slot :
  (forall (a : Capability) (diag : DiagLogger) (s : State),
      let s' := final (unregisterGlobal (K_api a) diag s) in
      (exists msg, trace s' = (trace s ++ [DiagDebug msg])%list)
      /\ (forall key, key <> GLOBAL_OPENTELEMETRY_API_KEY ->
            _global s' !! key = _global s !! key)
      /\ (forall id, _global s' !! scoped_key_of id = _global s !! scoped_key_of id)
      /\ stamp s' GLOBAL_OPENTELEMETRY_API_KEY = stamp s GLOBAL_OPENTELEMETRY_API_KEY)
  /\ (forall (a b : Capability) (diag : DiagLogger) (s : State),
        a <> b ->
        returns_normally diag ->
        exists s',
          unregisterGlobal (K_api a) diag s = Returned tt s'
          /\ result (getGlobal (K_api a) s') = Some None
          /\ result (getGlobal (K_api b) s') = result (getGlobal (K_api b) s)).
Proof.
  split.
  - intros a diag s s'.
    destruct (unregisterGlobal_cases (K_api a) diag s) as [msg H].
    assert (Hs' : s' = emit (DiagDebug msg) s
                  \/ s' = slot_deleted (K_api a) (emit (DiagDebug msg) s)).
    { subst s'. destruct (debug diag msg (trace s)); rewrite H; auto. }
    assert (Hother : forall key, key <> GLOBAL_OPENTELEMETRY_API_KEY ->
                       _global s' !! key = _global s !! key).
    { intros key Hne. destruct Hs' as [-> | ->]; [reflexivity|].
      unfold slot_deleted. cbn.
      destruct (_global s !! GLOBAL_OPENTELEMETRY_API_KEY); [|reflexivity].
      cbn. apply lookup_insert_ne. auto. }
    split; [|split; [exact Hother | split]].
    + exists msg. destruct Hs' as [-> | ->]; [reflexivity|].
      unfold slot_deleted. cbn.
      destruct (_global s !! GLOBAL_OPENTELEMETRY_API_KEY); reflexivity.
    + intros id. apply Hother. intros Heq. exact (keys_distinct id (eq_sym Heq)).
    + destruct Hs' as [-> | ->]; [reflexivity|].
      unfold stamp, slot_deleted. cbn.
      destruct (_global s !! GLOBAL_OPENTELEMETRY_API_KEY) eqn:Hg; cbn.
      * rewrite lookup_insert_eq. reflexivity.
      * rewrite Hg. reflexivity.
  - intros a b diag s Hab Hd.
    destruct (unregisterGlobal_cases (K_api a) diag s) as [msg H].
    destruct (Hd msg (trace s)) as [Hdbg _]. rewrite Hdbg in H.
    eexists. split; [exact H|].
    rewrite !getGlobal_result. unfold visible, slot_deleted. cbn.
    destruct (_global s !! GLOBAL_OPENTELEMETRY_API_KEY) as [t|] eqn:Hg; cbn.
    + rewrite lookup_insert_eq. cbn.
      rewrite lookup_delete_eq, lookup_delete_ne by exact Hab.
      split; [|reflexivity].
      destruct (version t) as [v|]; [|reflexivity].
      destruct (String.eqb v ""); [reflexivity|].
      destruct (isCompatible v); reflexivity.
    + rewrite Hg. split; reflexivity.
Qed.

(** C7, amended: the instance identifier is read from the clock when the
    module is loaded, once, and before any call; at that point the scoped
    key is unset.  No run of calls reads the clock or changes the
    identifier.  What the first [registerGlobal] call that allows an
    override does lazily is to derive the scoped key from the identifier;
    every other call, and every later one, leaves the key as it is. *)
Theorem C7_identifier_at_load_key_lazy :
  (forall (now : N) (process : State),
      instanceId (load_module now process) = (now mod 1000)%N
      /\ trace (load_module now process) = (trace process ++ [NewDate now])%list
      /\ SCOPED_OPENTELEMETRY_API_KEY (load_module now process) = None)
  /\ (forall (calls : list Call) (s : State),
        instanceId (run calls s) = instanceId s
        /\ clock_reads (trace (run calls s)) = clock_reads (trace s))
  /\ (forall (call : Call) (s : State),
        SCOPED_OPENTELEMETRY_API_KEY (step s call)
        = match call with
          | CallRegister _ _ _ true =>
              Some (nullish (SCOPED_OPENTELEMETRY_API_KEY s)
                      (scoped_key_of (instanceId s)))
          | _ => SCOPED_OPENTELEMETRY_API_KEY s
          end).
Proof.
  split; [|split].
  - intros now process. repeat split.
  - intros calls s. destruct (run_preserved calls s) as (Hid & Hclock & _). auto.
  - intros [c instance diag allowOverride | c | c diag] s; cbn [step].
    + rewrite registerGlobal_scoped_key. destruct allowOverride; reflexivity.
    + destruct (getGlobal_final (K_api c) s) as [-> | [v ->]]; reflexivity.
    + apply unregisterGlobal_scoped_key.
Qed.

(** C8, amended: after a [registerGlobal] call that allows an override the
    scoped key is set and a table exists under it.  When no entry was there
    before the call, the table carries this build's version; an entry that
    was there is kept, with the version it had. *)
Theorem C8_scoped_table_version (c : Capability) (instance : option Instance)
    (diag : DiagLogger) (s : State) :
  let s' := final (registerGlobal (K_api c) instance diag true s) in
  let k := nullish (SCOPED_OPENTELEMETRY_API_KEY s) (scoped_key_of (instanceId s)) in
  SCOPED_OPENTELEMETRY_API_KEY s' = Some k
  /\ stamp s' k = Some (match _global s !! k with
                        | Some t => version t
                        | None => Some VERSION
                        end).
Proof.
  intros s' k. split.
  - subst s'. rewrite registerGlobal_scoped_key. reflexivity.
  - apply (preserved_stamp (scoped_written (K_api c) instance s)).
    + subst s'.
      destruct (registerGlobal_final (K_api c) instance diag true s)
        as (s0 & [[Hf _] | [_ [m ->]]] & Hfin); [discriminate Hf|].
      destruct Hfin as [[_ ->] | ->].
      * apply preserved_emit. reflexivity.
      * apply (preserved_trans _
                 (emit (DiagDebug m) (scoped_written (K_api c) instance s))).
        -- apply preserved_emit. reflexivity.
        -- apply register_primary_preserved.
    + unfold stamp, scoped_written, scoped_key_now. fold k. cbn -[set_prop].
      rewrite lookup_insert_eq. cbn -[set_prop]. rewrite version_set_prop.
      destruct (_global s !! k); reflexivity.
Qed.







(** The assumption on the tables is needed: a frozen primary table makes the
    assignment of line 85 throw, with a logger that returns, whenever the
    call passes both checks. *)
Lemma registerGlobal_strict_frozen_primary (frozen : gset string) (c : Capability)
    (i : Instance) (diag : DiagLogger) (s : State) (t : OTelGlobalAPI) :
  GLOBAL_OPENTELEMETRY_API_KEY ∈ frozen ->
  _global s !! GLOBAL_OPENTELEMETRY_API_KEY = Some t ->
  version t = Some VERSION ->
  slots t !! c = None ->
  registerGlobal_strict frozen (K_api c) (Some i) diag false s = Thrown TypeError s.
Proof.
  intros Hfrozen Ht Hv Hc.
  unfold registerGlobal_strict, register_primary_strict, mbind, M_bind, bind.
  change (register_scoped_strict frozen (K_api c) (Some i) diag false s)
    with (Returned tt s).
  unfold read_global, write_global, ret. cbn -[assign_prop bool_decide].
  rewrite Ht. cbn -[assign_prop bool_decide]. rewrite Hc, Hv.
  rewrite bool_decide_eq_false_2 by (intros [x Hx]; discriminate Hx).
  rewrite bool_decide_eq_true_2 by reflexivity.
  cbn -[assign_prop bool_decide]. unfold assign_prop.
  rewrite (bool_decide_eq_true_2 _ Hfrozen).
  rewrite bool_decide_eq_true_2 by eauto. cbn.
  rewrite (insert_id _ _ _ Ht). unfold throw. f_equal. apply set_global_same.
Qed.

(** The assumption on the logger is needed as well: an exception of the
    logger leaves [registerGlobal] as an exception. *)
Lemma registerGlobal_rethrows (type : Key) (instance : Indexed type)
    (diag : DiagLogger) (s : State) (e : string) :
  (forall msg tr, debug diag msg tr = Some e) ->
  exists s', registerGlobal type instance diag true s = Thrown e s'.
Proof.
  intros Hthrow. unfold registerGlobal, mbind, M_bind, bind.
  destruct (register_scoped_on type instance diag s) as [m ->].
  unfold call_debug. rewrite Hthrow. eexists. reflexivity.
Qed.

(** C10: when the primary table exists and its version is missing or the
    empty string, [getGlobal] returns [undefined] in the very state it
    started in, so [isCompatible] was not called, whatever it would have
    answered; and no call of [getGlobal] changes the global object or the
    module's variables. *)
Theorem C10_get_falsy_version :
  (forall (type : Key) (s : State) (t : OTelGlobalAPI),
      _global s !! GLOBAL_OPENTELEMETRY_API_KEY = Some t ->
      version t = None \/ version t = Some "" ->
      getGlobal type s = Returned (undefined type) s)
  /\ (forall (type : Key) (s : State),
        _global (final (getGlobal type s)) = _global s
        /\ instanceId (final (getGlobal type s)) = instanceId s
        /\ SCOPED_OPENTELEMETRY_API_KEY (final (getGlobal type s))
           = SCOPED_OPENTELEMETRY_API_KEY s).
Proof.
  split.
  - intros type s t Ht Hv.
    unfold getGlobal, mbind, M_bind, bind, read_global, ret. cbn.
    rewrite Ht. cbn. destruct Hv as [-> | ->]; reflexivity.
  - intros type s.
    destruct (getGlobal_final type s) as [-> | [v ->]]; auto.
Qed.

(** ** Further properties: the keys *)

Lemma no_dot_split_dot_0 (s : string) : no_dot (split_dot_0 s) = true.
Proof.
  induction s as [|c r IH]; cbn; [reflexivity|].
  destruct (Ascii.eqb c ".") eqn:Hc; cbn; [reflexivity|].
  rewrite Hc, IH. reflexivity.
Qed.

Lemma split_dot_0_dotless (s : string) : no_dot s = true -> split_dot_0 s = s.
Proof.
  induction s as [|c r IH]; cbn; [reflexivity|].
  destruct (Ascii.eqb c "."); cbn; [discriminate|].
  intros Hr. rewrite (IH Hr). reflexivity.
Qed.

Lemma split_dot_0_app (a b : string) :
  no_dot a = true -> split_dot_0 (a +:+ String "." b) = a.
Proof.
  induction a as [|c r IH].
  - reflexivity.
  - change (String c r +:+ String "." b) with (String c (r +:+ String "." b)).
    cbn. destruct (Ascii.eqb c "."); cbn; [discriminate|].
    intros Hr. rewrite (IH Hr). reflexivity.
Qed.

(** Two texts that agree up to and including their first dot have the same
    text before it and the same text after it. *)
Lemma first_dot_unique (a a' r r' : string) :
  no_dot a = true -> no_dot a' = true ->
  a +:+ String "." r = a' +:+ String "." r' -> a = a' /\ r = r'.
Proof.
  revert a'. induction a as [|c a IH]; intros [|c' a'].
  - intros _ _ H. injection H as H. auto.
  - change (String c' a' +:+ String "." r') with (String c' (a' +:+ String "." r')).
    cbn. intros _ Hc' H. injection H as Hc _. subst c'. discriminate Hc'.
  - change (String c a +:+ String "." r) with (String c (a +:+ String "." r)).
    cbn. intros Hc _ H. injection H as Hc' _. subst c. discriminate Hc.
  - change (String c a +:+ String "." r) with (String c (a +:+ String "." r)).
    change (String c' a' +:+ String "." r') with (String c' (a' +:+ String "." r')).
    cbn. intros Ha Ha' H. injection H as -> H.
    apply andb_prop in Ha, Ha'. destruct Ha as [_ Ha]. destruct Ha' as [_ Ha'].
    destruct (IH a' Ha Ha' H) as [-> ->]. auto.
Qed.

(** X1: [VERSION.split('.')[0]] is the text before the first dot: of a text
    [a.b] with no dot in [a] it is [a], of a text without a dot it is the
    whole text, and it never holds a dot itself. *)
Theorem X1_major_is_text_before_first_dot :
  (forall a b : string, no_dot a = true -> split_dot_0 (a +:+ String "." b) = a)
  /\ (forall s : string, no_dot s = true -> split_dot_0 s = s)
  /\ (forall s : string, no_dot (split_dot_0 s) = true).
Proof.
  split; [|split].
  - exact split_dot_0_app.
  - exact split_dot_0_dotless.
  - exact no_dot_split_dot_0.
Qed.

(** ** Further properties: the module variable and the entries touched *)

Lemma register_primary_instanceId type instance diag allowOverride s :
  instanceId (final (register_primary type instance diag allowOverride s))
  = instanceId s.
Proof.
  destruct (register_primary_final type instance diag allowOverride s)
    as [msg [-> | ->]]; reflexivity.
Qed.

Lemma registerGlobal_instanceId type instance diag allowOverride s :
  instanceId (final (registerGlobal type instance diag allowOverride s))
  = instanceId s.
Proof.
  destruct (registerGlobal_final type instance diag allowOverride s)
    as (s0 & Hs0 & Hfin).
  assert (H0 : instanceId s0 = instanceId s).
  { destruct Hs0 as [[_ ->] | [_ [m ->]]]; reflexivity. }
  destruct Hfin as [[_ ->] | ->]; [exact H0|].
  rewrite register_primary_instanceId. exact H0.
Qed.

Lemma registerGlobal_module_invariant type instance diag allowOverride s :
  module_invariant s ->
  module_invariant (final (registerGlobal type instance diag allowOverride s)).
Proof.
  unfold module_invariant.
  rewrite registerGlobal_scoped_key, registerGlobal_instanceId.
  unfold scoped_key_now.
  destruct allowOverride, (SCOPED_OPENTELEMETRY_API_KEY s); cbn; auto.
Qed.

Lemma getGlobal_module_invariant type s :
  module_invariant s -> module_invariant (final (getGlobal type s)).
Proof. destruct (getGlobal_final type s) as [-> | [v ->]]; auto. Qed.

Lemma unregisterGlobal_module_invariant type diag s :
  module_invariant s -> module_invariant (final (unregisterGlobal type diag s)).
Proof.
  destruct (unregisterGlobal_cases type diag s) as [msg H].
  destruct (debug diag msg (trace s)); rewrite H; cbn [final]; [auto|].
  unfold slot_deleted. cbn.
  destruct (_global s !! GLOBAL_OPENTELEMETRY_API_KEY); auto.
Qed.

(** X5: the module variable [SCOPED_OPENTELEMETRY_API_KEY] is unset or holds
    the key derived from the copy's own [instanceId]: that is so when the
    module is loaded, and each of the three functions, for every property
    name, and every run of calls keeps it so. *)
Theorem X5_module_invariant_kept :
  (forall (now : N) (process : State), module_invariant (load_module now process))
  /\ (forall (type : Key) (instance : Indexed type) (diag : DiagLogger)
             (allowOverride : bool) (s : State),
        module_invariant s ->
        module_invariant (final (registerGlobal type instance diag allowOverride s)))
  /\ (forall (type : Key) (s : State),
        module_invariant s -> module_invariant (final (getGlobal type s)))
  /\ (forall (type : Key) (diag : DiagLogger) (s : State),
        module_invariant s ->
        module_invariant (final (unregisterGlobal type diag s)))
  /\ (forall (calls : list Call) (s : State),
        module_invariant s -> module_invariant (run calls s)).
Proof.
  split; [|split; [|split; [|split]]].
  - intros now process. exact I.
  - exact registerGlobal_module_invariant.
  - exact getGlobal_module_invariant.
  - exact unregisterGlobal_module_invariant.
  - intros calls. induction calls as [|call calls IH]; intros s Hs; cbn; [exact Hs|].
    apply IH. destruct call; cbn [step].
    + apply registerGlobal_module_invariant. exact Hs.
    + apply getGlobal_module_invariant. exact Hs.
    + apply unregisterGlobal_module_invariant. exact Hs.
Qed.

Lemma register_primary_other_keys type instance diag allowOverride s key :
  key <> GLOBAL_OPENTELEMETRY_API_KEY ->
  _global (final (register_primary type instance diag allowOverride s)) !! key
  = _global s !! key.
Proof.
  intros Hne.
  destruct (register_primary_final type instance diag allowOverride s)
    as [msg [-> | ->]]; cbn -[set_prop].
  - apply lookup_insert_ne. auto.
  - rewrite !lookup_insert_ne by auto. reflexivity.
Qed.

Lemma registerGlobal_other_keys type instance diag allowOverride s key :
  key <> GLOBAL_OPENTELEMETRY_API_KEY ->
  (allowOverride = true -> key <> scoped_key_now s) ->
  _global (final (registerGlobal type instance diag allowOverride s)) !! key
  = _global s !! key.
Proof.
  intros Hne Hscoped.
  destruct (registerGlobal_final type instance diag allowOverride s)
    as (s0 & Hs0 & Hfin).
  assert (H0 : _global s0 !! key = _global s !! key).
  { destruct Hs0 as [[_ ->] | [Hao [m ->]]]; [reflexivity|].
    cbn -[set_prop]. rewrite !lookup_insert_ne by (specialize (Hscoped Hao); auto).
    reflexivity. }
  destruct Hfin as [[_ ->] | ->]; [exact H0|].
  rewrite register_primary_other_keys by exact Hne. exact H0.
Qed.

(** X15: [registerGlobal] changes at most two entries of the global object,
    the one under the global key and the one under the scoped key; every
    other entry is what it was, whatever the property name, the instance,
    the policy flag and the logger. *)
Theorem X15_register_touches_two_entries (type : Key) (instance : Indexed type)
    (diag : DiagLogger) (allowOverride : bool) (s : State) (key : string) :
  key <> GLOBAL_OPENTELEMETRY_API_KEY ->
  key <> scoped_key_now s ->
  _global (final (registerGlobal type instance diag allowOverride s)) !! key
  = _global s !! key.
Proof.
  intros Hne Hscoped. apply registerGlobal_other_keys; auto.
Qed.

(** ** Further properties: registerGlobal *)

Lemma primary_usable_version s :
  primary_usable s -> version (primary_table s) = Some VERSION.
Proof.
  unfold primary_usable, primary_table.
  destruct (_global s !! GLOBAL_OPENTELEMETRY_API_KEY); cbn; auto.
Qed.

(** With an override allowed, a usable primary table and a logger that
    returns, the registration goes through both phases. *)
Lemma override_registered type instance diag s :
  returns_normally diag ->
  module_invariant s ->
  primary_usable s ->
  exists m0 m1,
    registerGlobal type instance diag true s
    = Returned true
        (emit (DiagDebug m1)
           (primary_written type instance
              (emit (DiagDebug m0) (scoped_written type instance s))))
    /\ primary_table (emit (DiagDebug m0) (scoped_written type instance s))
       = primary_table s.
Proof.
  intros Hd Hinv Huse.
  destruct (register_scoped_on type instance diag s) as [m0 Hscoped].
  rewrite (call_debug_normal _ _ _ Hd) in Hscoped.
  set (s0 := emit (DiagDebug m0) (scoped_written type instance s)) in *.
  assert (Htab : primary_table s0 = primary_table s).
  { unfold primary_table, s0. cbn -[scoped_written].
    rewrite scoped_written_primary by exact Hinv. reflexivity. }
  destruct (register_primary_cases type instance diag true s0)
    as [m1 [[[Hdup | Hbad] _] | (_ & _ & Hprim)]].
  - discriminate Hdup.
  - exfalso. apply Hbad. rewrite Htab. apply primary_usable_version. exact Huse.
  - exists m0, m1. split; [|exact Htab].
    unfold registerGlobal, mbind, M_bind, bind. rewrite Hscoped.
    rewrite Hprim. apply debug_then_true. exact Hd.
Qed.

(** X6: a registration that allows an override replaces whatever is
    registered: when the primary table is missing or carries this build's
    version, [registerGlobal(c, i, diag, true)] returns [true], also when
    [c] holds another instance, and [getGlobal(c)] then returns [i]. *)
Theorem X6_override_replaces (c : Capability) (i : Instance)
    (diag : DiagLogger) (s : State) :
  returns_normally diag ->
  VERSION <> "" ->
  isCompatible VERSION = true ->
  module_invariant s ->
  primary_usable s ->
  exists s',
    registerGlobal (K_api c) (Some i) diag true s = Returned true s'
    /\ result (getGlobal (K_api c) s') = Some (Some i).
Proof.
  intros Hd Hne Hok Hinv Huse.
  destruct (override_registered (K_api c) (Some i) diag s Hd Hinv Huse)
    as (m0 & m1 & Hreg & Htab).
  eexists. split; [exact Hreg|].
  rewrite getGlobal_result. f_equal. cbn -[set_prop scoped_written].
  apply visible_written; [assumption..|].
  fold (primary_table (emit (DiagDebug m0) (scoped_written (K_api c) (Some i) s))).
  rewrite Htab. apply primary_usable_version. exact Huse.
Qed.


(** X7: a registration that allows an override always leaves the instance in
    the table under the scoped key: whatever the state and the logger, and
    also when the call returns [false] or throws. *)
Theorem X7_scoped_write_unconditional (c : Capability) (i : Instance)
    (diag : DiagLogger) (s : State) :
  exists t,
    _global (final (registerGlobal (K_api c) (Some i) diag true s))
      !! scoped_key_now s = Some t
    /\ slots t !! c = Some i.
Proof.
  set (k := scoped_key_now s).
  set (holds := fun g : gmap string OTelGlobalAPI =>
                  exists t, g !! k = Some t /\ slots t !! c = Some i).
  assert (Hscoped : holds (_global (scoped_written (K_api c) (Some i) s))).
  { unfold holds, scoped_written. fold k. cbn.
    rewrite lookup_insert_eq. eexists. split; [reflexivity|].
    cbn. apply lookup_insert_eq. }
  assert (Hprim : forall s0, holds (_global s0) ->
             holds (_global (final (register_primary (K_api c) (Some i) diag true s0)))).
  { intros s0 (t & Ht & Hi). unfold holds.
    destruct (register_primary_final (K_api c) (Some i) diag true s0)
      as [msg [-> | ->]]; cbn.
    - destruct (decide (GLOBAL_OPENTELEMETRY_API_KEY = k)) as [Heq | Hne].
      + rewrite Heq, lookup_insert_eq. eexists. split; [reflexivity|].
        unfold primary_table. rewrite Heq, Ht. exact Hi.
      + rewrite lookup_insert_ne by exact Hne. eauto.
    - destruct (decide (GLOBAL_OPENTELEMETRY_API_KEY = k)) as [Heq | Hne].
      + rewrite Heq, lookup_insert_eq. eexists. split; [reflexivity|].
        cbn. apply lookup_insert_eq.
      + rewrite !lookup_insert_ne by exact Hne. eauto. }
  destruct (registerGlobal_final (K_api c) (Some i) diag true s)
    as (s0 & [[Hf _] | [_ [m ->]]] & Hfin); [discriminate Hf|].
  destruct Hfin as [[_ ->] | ->].
  - exact Hscoped.
  - apply Hprim. exact Hscoped.
Qed.

(** X21: a registration under one of the five API names that allows no
    override and returns [false] has changed nothing in the global object
    and the module variable; it has called [diag.error] once and nothing
    else. *)
Theorem X21_rejected_registration_changes_nothing (c : Capability)
    (instance : option Instance) (diag : DiagLogger) (s s' : State) :
  registerGlobal (K_api c) instance diag false s = Returned false s' ->
  exists msg, s' = emit (DiagError msg) s.
Proof.
  unfold registerGlobal, mbind, M_bind, bind. rewrite register_scoped_off.
  destruct (register_primary_cases (K_api c) instance diag false s)
    as [msg [[Hwhy ->] | (_ & _ & ->)]]; intros Hreg.
  - apply error_then_returned in Hreg. destruct Hreg as [_ ->].
    exists msg. f_equal.
    destruct (_global s !! GLOBAL_OPENTELEMETRY_API_KEY) as [t|] eqn:Ht.
    + apply (primary_fetched_present s t Ht).
    + exfalso. unfold primary_table in Hwhy. rewrite Ht in Hwhy. cbn in Hwhy.
      destruct Hwhy as [Hdup | Hbad]; [|apply Hbad; reflexivity].
      rewrite lookup_empty in Hdup.
      rewrite bool_decide_eq_true in Hdup. destruct Hdup as [x Hx]. discriminate Hx.
  - apply debug_then_returned in Hreg. destruct Hreg as [Hb _]. discriminate Hb.
Qed.

(** X20: with a logger that returns, [registerGlobal] makes one logger call
    when no override is allowed and two when one is; [diag.error] is called
    once when the result is [false] and not at all when it is [true]. *)
Theorem X20_diagnostics_of_register (type : Key) (instance : Indexed type)
    (diag : DiagLogger) (allowOverride : bool) (s : State) :
  returns_normally diag ->
  exists b s' evs,
    registerGlobal type instance diag allowOverride s = Returned b s'
    /\ trace s' = (trace s ++ evs)%list
    /\ length evs = (if allowOverride then 2 else 1)
    /\ error_calls evs = (if b then 0 else 1).
Proof.
  intros Hd.
  assert (Hscoped : exists s0 evs,
             register_scoped type instance diag allowOverride s = Returned tt s0
             /\ trace s0 = (trace s ++ evs)%list
             /\ length evs = (if allowOverride then 1 else 0)
             /\ error_calls evs = 0).
  { destruct allowOverride.
    - destruct (register_scoped_on type instance diag s) as [m ->].
      rewrite (call_debug_normal _ _ _ Hd).
      eexists _, [DiagDebug m]. repeat split.
    - exists s, []. rewrite register_scoped_off, app_nil_r. auto. }
  destruct Hscoped as (s0 & evs & Hs0 & Htr0 & Hlen & Herr).
  assert (Hlen' : forall ev, length (evs ++ [ev]) = if allowOverride then 2 else 1).
  { intros ev. rewrite length_app, Hlen. destruct allowOverride; reflexivity. }
  assert (Herr' : forall ev, error_calls (evs ++ [ev]) = error_calls [ev]).
  { intros ev. unfold error_calls in *. rewrite List.filter_app, length_app, Herr.
    reflexivity. }
  unfold registerGlobal, mbind, M_bind, bind. rewrite Hs0.
  destruct (register_primary_cases type instance diag allowOverride s0)
    as [msg [[_ ->] | (_ & _ & ->)]].
  - rewrite (error_then_false _ _ _ Hd).
    eexists false, _, (evs ++ [DiagError msg])%list.
    split; [reflexivity|]. split; [cbn; rewrite Htr0, app_assoc; reflexivity|].
    split; [apply Hlen' | rewrite Herr'; reflexivity].
  - rewrite (debug_then_true _ _ _ Hd).
    eexists true, _, (evs ++ [DiagDebug msg])%list.
    split; [reflexivity|]. split; [cbn; rewrite Htr0, app_assoc; reflexivity|].
    split; [apply Hlen' | rewrite Herr'; reflexivity].
Qed.

Lemma visible_ext type (g g' : gmap string OTelGlobalAPI) :
  g' !! GLOBAL_OPENTELEMETRY_API_KEY = g !! GLOBAL_OPENTELEMETRY_API_KEY ->
  visible type g' = visible type g.
Proof. intros H. unfold visible. rewrite H. reflexivity. Qed.

Lemma slots_set_prop_other t c c' instance :
  c <> c' -> slots (set_prop t (K_api c) instance) !! c' = slots t !! c'.
Proof.
  intros Hne. destruct instance; cbn.
  - apply lookup_insert_ne. exact Hne.
  - apply lookup_delete_ne. exact Hne.
Qed.

(** Putting a table under the global key that agrees with the one
    [registerGlobal] would work on, in its version and in the slot of [c'],
    does not change what [getGlobal(c')] returns. *)
Lemma visible_other_table c' t' (g : gmap string OTelGlobalAPI) :
  let t0 := nullish (g !! GLOBAL_OPENTELEMETRY_API_KEY) (fresh_table VERSION) in
  version t' = version t0 ->
  slots t' !! c' = slots t0 !! c' ->
  visible (K_api c') (<[GLOBAL_OPENTELEMETRY_API_KEY := t']> g)
  = visible (K_api c') g.
Proof.
  intros t0 Hv Hc. unfold visible. rewrite lookup_insert_eq. cbn.
  rewrite Hv, Hc. unfold t0.
  destruct (g !! GLOBAL_OPENTELEMETRY_API_KEY) as [t|]; cbn; [reflexivity|].
  rewrite lookup_empty.
  destruct (String.eqb VERSION ""); [reflexivity|].
  destruct (isCompatible VERSION); reflexivity.
Qed.

Lemma visible_scoped_written c c' instance s :
  c <> c' ->
  visible (K_api c') (_global (scoped_written (K_api c) instance s))
  = visible (K_api c') (_global s).
Proof.
  intros Hne. unfold scoped_written. cbn -[set_prop].
  destruct (decide (scoped_key_now s = GLOBAL_OPENTELEMETRY_API_KEY)) as [-> | Hk].
  - rewrite insert_insert_eq. apply visible_other_table.
    + apply version_set_prop.
    + apply slots_set_prop_other. exact Hne.
  - apply (visible_ext (K_api c')). rewrite !lookup_insert_ne by exact Hk.
    reflexivity.
Qed.

Lemma visible_register_primary c c' instance diag allowOverride s :
  c <> c' ->
  visible (K_api c')
    (_global (final (register_primary (K_api c) instance diag allowOverride s)))
  = visible (K_api c') (_global s).
Proof.
  intros Hne.
  destruct (register_primary_final (K_api c) instance diag allowOverride s)
    as [msg [-> | ->]]; cbn -[set_prop].
  - apply visible_other_table; reflexivity.
  - rewrite insert_insert_eq. apply visible_other_table.
    + apply version_set_prop.
    + apply slots_set_prop_other. exact Hne.
Qed.

(** X13: registering under one API name never changes what [getGlobal]
    returns for another: whatever the instance, the policy flag, the logger
    and the state, and whether the call returns [true], [false] or
    throws. *)
Theorem X13_register_leaves_other_names (c c' : Capability)
    (instance : option Instance) (diag : DiagLogger) (allowOverride : bool)
    (s : State) :
  c <> c' ->
  result (getGlobal (K_api c')
            (final (registerGlobal (K_api c) instance diag allowOverride s)))
  = result (getGlobal (K_api c') s).
Proof.
  intros Hne. rewrite !getGlobal_result. f_equal.
  destruct (registerGlobal_final (K_api c) instance diag allowOverride s)
    as (s0 & Hs0 & Hfin).
  assert (H0 : visible (K_api c') (_global s0) = visible (K_api c') (_global s)).
  { destruct Hs0 as [[_ ->] | [_ [m ->]]]; [reflexivity|].
    apply (visible_scoped_written c c' instance s Hne). }
  destruct Hfin as [[_ ->] | ->]; [exact H0|].
  rewrite visible_register_primary by exact Hne. exact H0.
Qed.

(** X16: when [diag.debug] throws, a registration that allows an override
    stops after the scoped phase: the exception leaves [registerGlobal], the
    instance is in the table under the scoped key, and the entry under the
    global key is what it was, not even created. *)
Theorem X16_throwing_logger_stops_before_primary (type : Key)
    (instance : Indexed type) (diag : DiagLogger) (s : State) (e : string) :
  (forall msg tr, debug diag msg tr = Some e) ->
  module_invariant s ->
  exists s',
    registerGlobal type instance diag true s = Thrown e s'
    /\ _global s' !! GLOBAL_OPENTELEMETRY_API_KEY
       = _global s !! GLOBAL_OPENTELEMETRY_API_KEY
    /\ SCOPED_OPENTELEMETRY_API_KEY s' = Some (scoped_key_now s)
    /\ _global s' !! scoped_key_now s
       = Some (set_prop (nullish (_global s !! scoped_key_now s) (fresh_table VERSION))
                 type instance).
Proof.
  intros Hthrow Hinv. unfold registerGlobal, mbind, M_bind, bind.
  destruct (register_scoped_on type instance diag s) as [m ->].
  unfold call_debug. rewrite Hthrow. eexists. split; [reflexivity|].
  split; [|split].
  - cbn -[scoped_written]. apply scoped_written_primary. exact Hinv.
  - reflexivity.
  - cbn -[set_prop]. apply lookup_insert_eq.
Qed.

(** X18: when [diag.debug] throws, a registration that allows no override
    and passes both checks still throws, after the instance is written: the
    exception leaves [registerGlobal] and the slot holds the instance. *)
Theorem X18_throwing_logger_after_primary_write (c : Capability) (i : Instance)
    (diag : DiagLogger) (s : State) (e : string) :
  (forall msg tr, debug diag msg tr = Some e) ->
  no_prior_registration c s ->
  exists s' t,
    registerGlobal (K_api c) (Some i) diag false s = Thrown e s'
    /\ _global s' !! GLOBAL_OPENTELEMETRY_API_KEY = Some t
    /\ version t = Some VERSION
    /\ slots t !! c = Some i.
Proof.
  intros Hthrow Hfree.
  assert (Htab : version (primary_table s) = Some VERSION
                 /\ slots (primary_table s) !! c = None).
  { unfold no_prior_registration in Hfree. unfold primary_table.
    destruct (_global s !! GLOBAL_OPENTELEMETRY_API_KEY) as [t|]; cbn.
    - exact Hfree.
    - split; [reflexivity | apply lookup_empty]. }
  destruct Htab as [Hv Hslot].
  unfold registerGlobal, mbind, M_bind, bind. rewrite register_scoped_off.
  destruct (register_primary_cases (K_api c) (Some i) diag false s)
    as [msg [[[Hdup | Hbad] _] | (_ & _ & ->)]].
  - exfalso. cbn in Hdup. rewrite Hslot in Hdup.
    rewrite bool_decide_eq_true in Hdup. destruct Hdup as [x Hx]. discriminate Hx.
  - contradiction.
  - unfold mbind, M_bind, bind, call_debug. rewrite Hthrow.
    eexists _, _. split; [reflexivity|]. split; [|split].
    + cbn -[set_prop]. apply lookup_insert_eq.
    + exact Hv.
    + cbn. apply lookup_insert_eq.
Qed.

(** ** Further properties: getGlobal *)

(** X8: when [isCompatible] turns the stored version down, [getGlobal]
    returns [undefined] for every property name, whatever the table
    holds. *)
Theorem X8_incompatible_version_hides_all (type : Key) (s : State)
    (t : OTelGlobalAPI) (v : string) :
  _global s !! GLOBAL_OPENTELEMETRY_API_KEY = Some t ->
  version t = Some v ->
  isCompatible v = false ->
  result (getGlobal type s) = Some (undefined type).
Proof.
  intros Ht Hv Hno. rewrite getGlobal_result. unfold visible.
  rewrite Ht, Hv, Hno. destruct (String.eqb v ""); reflexivity.
Qed.

(** X10: [getGlobal] does not compare the stored version with this build's:
    when the stored version is not empty and [isCompatible] accepts it,
    [getGlobal] returns what the table holds under the name, for a table
    stamped by any version. *)
Theorem X10_get_reads_any_compatible_table (type : Key) (s : State)
    (t : OTelGlobalAPI) (v : string) :
  _global s !! GLOBAL_OPENTELEMETRY_API_KEY = Some t ->
  version t = Some v ->
  v <> "" ->
  isCompatible v = true ->
  getGlobal type s = Returned (get_prop t type) (emit (IsCompatible v) s).
Proof.
  intros Ht Hv Hne Hok. apply String.eqb_neq in Hne.
  unfold getGlobal, mbind, M_bind, bind, read_global, ret, call_isCompatible.
  cbn. rewrite Ht. cbn. rewrite Hv, Hne, Hok. cbn. rewrite Ht. reflexivity.
Qed.

(** X9: [getGlobal] calls [isCompatible] at most once, with the version the
    table under the global key carries, and only when that version is there
    and not empty; it makes no other call. *)
Theorem X9_isCompatible_called_on_stored_version (type : Key) (s : State) :
  trace (final (getGlobal type s))
  = (trace s
     ++ match _global s !! GLOBAL_OPENTELEMETRY_API_KEY ≫= version with
        | Some v => if String.eqb v "" then [] else [IsCompatible v]
        | None => []
        end)%list.
Proof.
  unfold getGlobal, mbind, M_bind, bind, read_global, ret, call_isCompatible.
  cbn. destruct (_global s !! GLOBAL_OPENTELEMETRY_API_KEY) as [api|] eqn:Hg; cbn.
  - destruct (version api) as [v|]; cbn; [|rewrite app_nil_r; reflexivity].
    destruct (String.eqb v ""); cbn; [rewrite app_nil_r; reflexivity|].
    destruct (isCompatible v); reflexivity.
  - rewrite app_nil_r. reflexivity.
Qed.

(** X14: [getGlobal] never reads a scoped table: putting any table under a
    scoped key, or removing the entry, does not change its result. *)
Theorem X14_get_ignores_scoped_tables (type : Key) (id : N)
    (t : OTelGlobalAPI) (s : State) :
  result (getGlobal type (set_global (<[scoped_key_of id := t]> (_global s)) s))
  = result (getGlobal type s)
  /\ result (getGlobal type (set_global (delete (scoped_key_of id) (_global s)) s))
     = result (getGlobal type s).
Proof.
  rewrite !getGlobal_result. split; f_equal; apply visible_ext; cbn.
  - apply lookup_insert_ne. intros H. exact (keys_distinct id (eq_sym H)).
  - apply lookup_delete_ne. intros H. exact (keys_distinct id (eq_sym H)).
Qed.

(** ** Further properties: unregisterGlobal *)

Lemma delete_prop_absent t c :
  slots t !! c = None -> delete_prop t (K_api c) = t.
Proof. intros H. destruct t as [v sl]. cbn in *. rewrite (delete_id _ _ H). reflexivity. Qed.

Lemma delete_set_prop t c i :
  slots t !! c = None ->
  delete_prop (set_prop t (K_api c) (Some i)) (K_api c) = t.
Proof.
  intros H. destruct t as [v sl]. cbn in *.
  rewrite (delete_insert_id _ _ _ H). reflexivity.
Qed.

(** X11: unregistering a name under which nothing is registered, or when
    there is no primary table at all, leaves the global object as it is; in
    particular no table is created. *)
Theorem X11_unregister_absent_changes_nothing (c : Capability)
    (diag : DiagLogger) (s : State) :
  match _global s !! GLOBAL_OPENTELEMETRY_API_KEY with
  | None => True
  | Some t => slots t !! c = None
  end ->
  _global (final (unregisterGlobal (K_api c) diag s)) = _global s.
Proof.
  intros Habs.
  destruct (unregisterGlobal_cases (K_api c) diag s) as [msg H].
  destruct (debug diag msg (trace s)); rewrite H; cbn [final]; [reflexivity|].
  unfold slot_deleted. cbn -[delete_prop].
  destruct (_global s !! GLOBAL_OPENTELEMETRY_API_KEY) as [t|] eqn:Ht;
    [|reflexivity].
  cbn -[delete_prop]. rewrite (delete_prop_absent _ _ Habs).
  apply insert_id. exact Ht.
Qed.

(** X12: registering under a free name and unregistering it again gives the
    global object back as it was, when the primary table was there; when it
    was not, what stays behind is the empty table with this build's
    version. *)
Theorem X12_register_unregister_round_trip (c : Capability) (i : Instance)
    (diag : DiagLogger) (s : State) :
  returns_normally diag ->
  no_prior_registration c s ->
  exists s1 s2,
    registerGlobal (K_api c) (Some i) diag false s = Returned true s1
    /\ unregisterGlobal (K_api c) diag s1 = Returned tt s2
    /\ _global s2
       = match _global s !! GLOBAL_OPENTELEMETRY_API_KEY with
         | Some _ => _global s
         | None => <[GLOBAL_OPENTELEMETRY_API_KEY := fresh_table VERSION]> (_global s)
         end.
Proof.
  intros Hd Hfree.
  assert (Htab : version (primary_table s) = Some VERSION
                 /\ slots (primary_table s) !! c = None).
  { unfold no_prior_registration in Hfree. unfold primary_table.
    destruct (_global s !! GLOBAL_OPENTELEMETRY_API_KEY) as [t|]; cbn.
    - exact Hfree.
    - split; [reflexivity | apply lookup_empty]. }
  destruct Htab as [Hv Hslot].
  destruct (register_primary_cases (K_api c) (Some i) diag false s)
    as [m1 [[[Hdup | Hbad] _] | (_ & _ & Hprim)]].
  - exfalso. cbn in Hdup. rewrite Hslot in Hdup.
    rewrite bool_decide_eq_true in Hdup. destruct Hdup as [x Hx]. discriminate Hx.
  - contradiction.
  - rewrite (debug_then_true _ _ _ Hd) in Hprim.
    set (s1 := emit (DiagDebug m1) (primary_written (K_api c) (Some i) s)) in *.
    destruct (unregisterGlobal_cases (K_api c) diag s1) as [m2 Hun].
    destruct (Hd m2 (trace s1)) as [Hdbg _]. rewrite Hdbg in Hun.
    eexists s1, _. split; [|split; [exact Hun|]].
    + unfold registerGlobal, mbind, M_bind, bind. rewrite register_scoped_off.
      exact Hprim.
    + unfold slot_deleted, s1. cbn -[set_prop delete_prop].
      rewrite lookup_insert_eq. cbn -[set_prop delete_prop].
      rewrite (delete_set_prop _ _ _ Hslot), !insert_insert_eq.
      unfold primary_table.
      destruct (_global s !! GLOBAL_OPENTELEMETRY_API_KEY) as [t|] eqn:Ht; cbn.
      * apply insert_id. exact Ht.
      * reflexivity.
Qed.

(** X17: when [diag.debug] throws, [unregisterGlobal] removes nothing: the
    exception leaves it before the slot is deleted. *)
Theorem X17_throwing_logger_keeps_slot (type : Key) (diag : DiagLogger)
    (s : State) (e : string) :
  (forall msg tr, debug diag msg tr = Some e) ->
  exists msg, unregisterGlobal type diag s = Thrown e (emit (DiagDebug msg) s).
Proof.
  intros Hthrow. destruct (unregisterGlobal_cases type diag s) as [msg H].
  rewrite Hthrow in H. exists msg. exact H.
Qed.

(** ** Facts used for several copies of the module *)

Lemma scoped_key_now_invariant s :
  module_invariant s -> scoped_key_now s = scoped_key_of (instanceId s).
Proof.
  unfold module_invariant, scoped_key_now.
  destruct (SCOPED_OPENTELEMETRY_API_KEY s); cbn; auto.
Qed.

Lemma register_writes_slot c (i : Instance) diag s :
  no_prior_registration c s ->
  exists t,
    _global (final (registerGlobal (K_api c) (Some i) diag false s))
      !! GLOBAL_OPENTELEMETRY_API_KEY = Some t
    /\ version t = Some VERSION
    /\ slots t !! c = Some i.
Proof.
  intros Hfree.
  assert (Htab : version (primary_table s) = Some VERSION
                 /\ slots (primary_table s) !! c = None).
  { unfold no_prior_registration in Hfree. unfold primary_table.
    destruct (_global s !! GLOBAL_OPENTELEMETRY_API_KEY) as [t|]; cbn.
    - exact Hfree.
    - split; [reflexivity | apply lookup_empty]. }
  destruct Htab as [Hv Hslot].
  unfold registerGlobal, mbind, M_bind, bind. rewrite register_scoped_off.
  destruct (register_primary_cases (K_api c) (Some i) diag false s)
    as [msg [[[Hdup | Hbad] _] | (_ & _ & ->)]].
  - exfalso. cbn in Hdup. rewrite Hslot in Hdup.
    rewrite bool_decide_eq_true in Hdup. destruct Hdup as [x Hx]. discriminate Hx.
  - contradiction.
  - rewrite final_debug_then. eexists. split; [|split].
    + cbn -[set_prop]. apply lookup_insert_eq.
    + exact Hv.
    + cbn. apply lookup_insert_eq.
Qed.

Lemma unregisterGlobal_global type diag s :
  returns_normally diag ->
  _global (final (unregisterGlobal type diag s)) = _global (slot_deleted type s).
Proof.
  intros Hd. destruct (unregisterGlobal_cases type diag s) as [msg H].
  destruct (Hd msg (trace s)) as [Hdbg _]. rewrite Hdbg in H. rewrite H.
  unfold slot_deleted. cbn.
  destruct (_global s !! GLOBAL_OPENTELEMETRY_API_KEY); reflexivity.
Qed.

Lemma unregisterGlobal_other_keys type diag s key :
  key <> GLOBAL_OPENTELEMETRY_API_KEY ->
  _global (final (unregisterGlobal type diag s)) !! key = _global s !! key.
Proof.
  intros Hne. destruct (unregisterGlobal_cases type diag s) as [msg H].
  destruct (debug diag msg (trace s)); rewrite H; cbn [final]; [reflexivity|].
  unfold slot_deleted. cbn.
  destruct (_global s !! GLOBAL_OPENTELEMETRY_API_KEY); [|reflexivity].
  cbn. apply lookup_insert_ne. auto.
Qed.

End GlobalUtils.

(** ** The claims at concrete inputs *)

Lemma quiet_logger_returns : returns_normally quiet_logger.
Proof. intros msg tr. split; reflexivity. Qed.

(** C1 as stated fails: in a fresh process, after registering instance 1 for
    [diag] with an override allowed and then instance 2 without, [getGlobal]
    returns instance 1, not instance 2. *)
Lemma C1_counterexample :
  let s0 := load_module sample_now empty_process in
  let s1 := final (registerGlobal sample_VERSION sample_Error_stack
                     (K_api K_diag) (Some 1) quiet_logger true s0) in
  let s2 := final (registerGlobal sample_VERSION sample_Error_stack
                     (K_api K_diag) (Some 2) quiet_logger false s1) in
  _global s0 = ∅
  /\ result (getGlobal sample_VERSION sample_isCompatible (K_api K_diag) s2)
     = Some (Some 1)
  /\ result (getGlobal sample_VERSION sample_isCompatible (K_api K_diag) s2)
     <> Some (Some 2).
Proof.
  vm_compute. split; [reflexivity|]. split; [reflexivity|]. intros H. discriminate H.
Qed.

(** C1, amended, at a concrete input: [trace] registered twice in a fresh
    process. *)
Lemma C1_witness :
  let s0 := load_module sample_now empty_process in
  exists s1 msg,
    registerGlobal sample_VERSION sample_Error_stack
      (K_api K_trace) (Some 1) quiet_logger true s0 = Returned true s1
    /\ SCOPED_OPENTELEMETRY_API_KEY s1 = Some (scoped_key_now sample_VERSION s0)
    /\ (exists t, _global s1 !! scoped_key_now sample_VERSION s0 = Some t
                  /\ slots t !! K_trace = Some 1)
    /\ (exists t, _global s1 !! GLOBAL_OPENTELEMETRY_API_KEY sample_VERSION = Some t
                  /\ slots t !! K_trace = Some 1)
    /\ registerGlobal sample_VERSION sample_Error_stack
         (K_api K_trace) (Some 2) quiet_logger false s1
       = Returned false (emit (DiagError msg) s1)
    /\ result (getGlobal sample_VERSION sample_isCompatible (K_api K_trace)
                 (emit (DiagError msg) s1))
       = Some (Some 1).
Proof.
  intros s0.
  apply (C1_override_registers_primary sample_VERSION sample_isCompatible
           sample_Error_stack K_trace 1 2 quiet_logger s0).
  - exact quiet_logger_returns.
  - intros H. discriminate H.
  - reflexivity.
  - exact I.
  - exact I.
Defined.

(** C2 at a concrete input: [metrics] registered in a fresh process. *)
Lemma C2_witness :
  let s0 := load_module sample_now empty_process in
  result (getGlobal sample_VERSION sample_isCompatible (K_api K_metrics)
            (final (registerGlobal sample_VERSION sample_Error_stack
                      (K_api K_metrics) (Some 7) quiet_logger false s0)))
  = Some (Some 7)
  /\ (returns_normally quiet_logger ->
      result (registerGlobal sample_VERSION sample_Error_stack
                (K_api K_metrics) (Some 7) quiet_logger false s0)
      = Some true).
Proof.
  intros s0.
  apply (C2_register_then_get sample_VERSION sample_isCompatible
           sample_Error_stack K_metrics 7 quiet_logger s0).
  - intros H. discriminate H.
  - reflexivity.
  - exact I.
Defined.

(** C3 at a concrete input: [diag] registered a second time. *)
Lemma C3_witness :
  let s := final (registerGlobal sample_VERSION sample_Error_stack
                    (K_api K_diag) (Some 1) quiet_logger false
                    (load_module sample_now empty_process)) in
  exists msg,
    registerGlobal sample_VERSION sample_Error_stack
      (K_api K_diag) (Some 2) quiet_logger false s
    = Returned false (emit (DiagError msg) s)
    /\ result (getGlobal sample_VERSION sample_isCompatible (K_api K_diag)
                 (emit (DiagError msg) s))
       = result (getGlobal sample_VERSION sample_isCompatible (K_api K_diag) s).
Proof.
  intros s.
  apply (C3_duplicate_rejected sample_VERSION sample_isCompatible
           sample_Error_stack K_diag 1 (Some 2) quiet_logger s
           {| version := Some sample_VERSION; slots := {[K_diag := 1]} |}).
  - exact quiet_logger_returns.
  - vm_compute. reflexivity.
  - vm_compute. reflexivity.
Defined.

(** C4 at a concrete input: a copy of version 1.4.0 registers after a copy
    of version 1.3.0 has created the primary table. *)
Lemma C4_witness :
  let s := load_module later_now
             (final (registerGlobal older_VERSION sample_Error_stack
                       (K_api K_diag) (Some 1) quiet_logger false
                       (load_module sample_now empty_process))) in
  let t := {| version := Some older_VERSION; slots := {[K_diag := 1]} |} in
  exists s' evs msg,
    registerGlobal sample_VERSION sample_Error_stack
      (K_api K_trace) (Some 2) quiet_logger true s = Returned false s'
    /\ _global s' !! GLOBAL_OPENTELEMETRY_API_KEY sample_VERSION = Some t
    /\ trace s' = (trace s ++ evs ++ [DiagError msg])%list.
Proof.
  intros s t.
  apply (C4_version_mismatch_rejected sample_VERSION sample_Error_stack
           (K_api K_trace) (Some 2) quiet_logger true s t).
  - exact quiet_logger_returns.
  - exact I.
  - vm_compute. reflexivity.
  - intros H. discriminate H.
Defined.

(** C5 at a concrete input: a successful registration, then a run of four
    calls, one of them with a logger that throws. *)
Lemma C5_witness :
  let s0 := load_module sample_now empty_process in
  let s := final (registerGlobal sample_VERSION sample_Error_stack
                    (K_api K_diag) (Some 1) quiet_logger false s0) in
  let calls := [CallRegister K_trace (Some 2) quiet_logger true;
                CallUnregister K_diag quiet_logger;
                CallGet K_trace;
                CallRegister K_trace (Some 3) broken_logger false] in
  stamp (run sample_VERSION sample_isCompatible sample_Error_stack calls s)
    (GLOBAL_OPENTELEMETRY_API_KEY sample_VERSION)
  = Some (Some sample_VERSION)
  /\ stamp s (GLOBAL_OPENTELEMETRY_API_KEY sample_VERSION)
     = Some (Some sample_VERSION).
Proof.
  intros s0 s calls.
  destruct (C5_version_stamp_immutable sample_VERSION sample_isCompatible
              sample_Error_stack) as [Hkeep Hfirst].
  split.
  - apply (Hkeep calls s (Some sample_VERSION)). vm_compute. reflexivity.
  - apply (Hfirst K_diag (Some 1) quiet_logger false s0 s). vm_compute. reflexivity.
Defined.

(** C6 at a concrete input: [diag] and [trace] registered, [diag]
    unregistered. *)
Lemma C6_witness :
  let s := final (registerGlobal sample_VERSION sample_Error_stack
                    (K_api K_trace) (Some 2) quiet_logger false
                    (final (registerGlobal sample_VERSION sample_Error_stack
                              (K_api K_diag) (Some 1) quiet_logger false
                              (load_module sample_now empty_process)))) in
  exists s',
    unregisterGlobal sample_VERSION (K_api K_diag) quiet_logger s = Returned tt s'
    /\ result (getGlobal sample_VERSION sample_isCompatible (K_api K_diag) s')
       = Some None
    /\ result (getGlobal sample_VERSION sample_isCompatible (K_api K_trace) s')
       = result (getGlobal sample_VERSION sample_isCompatible (K_api K_trace) s).
Proof.
  intros s.
  apply (proj2 (C6_unregister_one_slot sample_VERSION sample_isCompatible)
           K_diag K_trace quiet_logger s).
  - intros H. discriminate H.
  - exact quiet_logger_returns.
Defined.

(** C7 as stated fails: right after the module is loaded, before any call,
    the clock has been read once and [instanceId] holds its millisecond
    part; the first registration that allows an override reads no clock. *)
Lemma C7_counterexample :
  let s0 := load_module sample_now empty_process in
  let s1 := final (registerGlobal sample_VERSION sample_Error_stack
                     (K_api K_diag) (Some 1) quiet_logger true s0) in
  trace s0 = [NewDate sample_now]
  /\ instanceId s0 = 123%N
  /\ clock_reads (trace s0) = 1
  /\ clock_reads (trace s1) = clock_reads (trace s0).
Proof. vm_compute. repeat split. Qed.

(** C8 as stated fails: a copy of version 1.3.0 and a copy of version 1.4.0
    are loaded at clock readings with the same millisecond part, so they
    derive the same scoped key.  Each registers with an override allowed.
    The scoped table the second copy then finds under its key is the one the
    first copy created, with version 1.3.0. *)
Lemma C8_counterexample :
  let sA := final (registerGlobal older_VERSION sample_Error_stack
                     (K_api K_diag) (Some 1) quiet_logger true
                     (load_module sample_now empty_process)) in
  let sB := final (registerGlobal sample_VERSION sample_Error_stack
                     (K_api K_trace) (Some 2) quiet_logger true
                     (load_module later_now sA)) in
  SCOPED_OPENTELEMETRY_API_KEY sB = Some (scoped_key_of sample_VERSION 123)
  /\ stamp sB (scoped_key_of sample_VERSION 123) = Some (Some older_VERSION)
  /\ stamp sB (scoped_key_of sample_VERSION 123) <> Some (Some sample_VERSION).
Proof.
  vm_compute. split; [reflexivity|]. split; [reflexivity|]. intros H. discriminate H.
Qed.



(** With a logger that throws, the exception leaves [registerGlobal]. *)
Example registerGlobal_broken_logger :
  result (registerGlobal sample_VERSION sample_Error_stack
            (K_api K_diag) (Some 1) broken_logger true
            (load_module sample_now empty_process))
  = None.
Proof. vm_compute. reflexivity. Qed.

(** C10 at a concrete input: [diag] is registered, then the version field
    of the primary table is overwritten with the empty string through the
    property name [version]; the predicate would accept any version. *)
Lemma C10_witness :
  let s := final (registerGlobal sample_VERSION sample_Error_stack
                    K_version "" quiet_logger true
                    (final (registerGlobal sample_VERSION sample_Error_stack
                              (K_api K_diag) (Some 1) quiet_logger false
                              (load_module sample_now empty_process)))) in
  getGlobal sample_VERSION (fun _ => true) (K_api K_diag) s
  = Returned (undefined (K_api K_diag)) s.
Proof.
  intros s.
  apply (proj1 (C10_get_falsy_version sample_VERSION (fun _ => true))
           (K_api K_diag) s {| version := Some ""; slots := {[K_diag := 1]} |}).
  - vm_compute. reflexivity.
  - right. reflexivity.
Defined.

(** ** Further examples *)

(** The scenario of a build of version 1.4.0: a logger is registered for
    [diag] and read back; a second registration is turned down with one
    error diagnostic and the first logger stays; after unregistering,
    nothing is read. *)
Example diag_scenario :
  let reg := registerGlobal sample_VERSION sample_Error_stack (K_api K_diag) in
  let get := getGlobal sample_VERSION sample_isCompatible (K_api K_diag) in
  let s0 := load_module sample_now empty_process in
  let s1 := final (reg (Some 1) quiet_logger false s0) in
  let s2 := final (reg (Some 2) quiet_logger false s1) in
  let s3 := final (unregisterGlobal sample_VERSION (K_api K_diag) quiet_logger s2) in
  result (reg (Some 1) quiet_logger false s0) = Some true
  /\ result (get s1) = Some (Some 1)
  /\ result (reg (Some 2) quiet_logger false s1) = Some false
  /\ error_calls (trace s2) = 1
  /\ result (get s2) = Some (Some 1)
  /\ result (get s3) = Some None.
Proof. vm_compute. repeat split. Qed.

(** The type parameter of the three functions also allows the property name
    [version], which is not one of the API names: such a call writes or
    deletes the version field itself. *)
Example version_key_scenario :
  let s0 := load_module sample_now empty_process in
  let s1 := final (registerGlobal sample_VERSION sample_Error_stack
                     (K_api K_diag) (Some 1) quiet_logger false s0) in
  let s2 := final (registerGlobal sample_VERSION sample_Error_stack
                     K_version "2.0.0" quiet_logger true s1) in
  let s3 := final (unregisterGlobal sample_VERSION K_version quiet_logger s1) in
  stamp s1 (GLOBAL_OPENTELEMETRY_API_KEY sample_VERSION) = Some (Some "1.4.0")
  /\ stamp s2 (GLOBAL_OPENTELEMETRY_API_KEY sample_VERSION) = Some (Some "2.0.0")
  /\ stamp s3 (GLOBAL_OPENTELEMETRY_API_KEY sample_VERSION) = Some None.
Proof. vm_compute. repeat split. Qed.

(** ** Several copies of the module in one process *)

Lemma no_dot_app_dot (a r : string) : no_dot (a +:+ String "." r) = false.
Proof.
  induction a as [|c a IH]; [reflexivity|].
  change (String c a +:+ String "." r) with (String c (a +:+ String "." r)).
  cbn. rewrite IH. apply andb_false_r.
Qed.

Lemma primary_key_same_major (V1 V2 : string) :
  major V1 = major V2 ->
  GLOBAL_OPENTELEMETRY_API_KEY V1 = GLOBAL_OPENTELEMETRY_API_KEY V2.
Proof. intros H. unfold GLOBAL_OPENTELEMETRY_API_KEY. rewrite H. reflexivity. Qed.

Lemma primary_key_other_major (V1 V2 : string) :
  major V1 <> major V2 ->
  GLOBAL_OPENTELEMETRY_API_KEY V1 <> GLOBAL_OPENTELEMETRY_API_KEY V2.
Proof.
  intros Hne H. apply Hne.
  unfold GLOBAL_OPENTELEMETRY_API_KEY, Symbol_for in H.
  exact (inj (String.app _) _ _ H).
Qed.

Lemma primary_key_not_scoped (V1 V2 : string) (id : N) :
  GLOBAL_OPENTELEMETRY_API_KEY V1 <> scoped_key_of V2 id.
Proof.
  unfold GLOBAL_OPENTELEMETRY_API_KEY, scoped_key_of, Symbol_for. intros H.
  apply (inj (String.app _)) in H.
  pose proof (no_dot_split_dot_0 V1) as Hdot. fold (major V1) in Hdot.
  rewrite H in Hdot.
  change (no_dot (major V2 +:+ String "." ("instance." +:+ pretty id)) = true) in Hdot.
  rewrite no_dot_app_dot in Hdot. discriminate Hdot.
Qed.

(** X2: the global key depends on the version through its major part only:
    two builds of the same major version use the same key, two builds of
    different major versions use different keys. *)
Theorem X2_primary_key_by_major (V1 V2 : string) :
  (major V1 = major V2 ->
   GLOBAL_OPENTELEMETRY_API_KEY V1 = GLOBAL_OPENTELEMETRY_API_KEY V2)
  /\ (major V1 <> major V2 ->
      GLOBAL_OPENTELEMETRY_API_KEY V1 <> GLOBAL_OPENTELEMETRY_API_KEY V2).
Proof.
  split; [apply primary_key_same_major | apply primary_key_other_major].
Qed.

(** X3: no global key is a scoped key: for any two builds and any instance
    identifier, the global key of one differs from the scoped key of the
    other. *)
Theorem X3_primary_key_never_scoped (V1 V2 : string) (id : N) :
  GLOBAL_OPENTELEMETRY_API_KEY V1 <> scoped_key_of V2 id.
Proof. apply primary_key_not_scoped. Qed.

(** X4: two copies derive the same scoped key exactly when their builds have
    the same major version and their instance identifiers are equal; the
    identifier a copy gets at load time is below 1000. *)
Theorem X4_scoped_key_collision :
  (forall (V1 V2 : string) (id1 id2 : N),
      scoped_key_of V1 id1 = scoped_key_of V2 id2
      <-> major V1 = major V2 /\ id1 = id2)
  /\ (forall (now : N) (process : State),
        (instanceId (load_module now process) < 1000)%N).
Proof.
  split.
  - intros V1 V2 id1 id2. split.
    + unfold scoped_key_of, Symbol_for. intros H.
      apply (inj (String.app _)) in H.
      change (major V1 +:+ String "." ("instance." +:+ pretty id1)
              = major V2 +:+ String "." ("instance." +:+ pretty id2)) in H.
      apply first_dot_unique in H; try apply no_dot_split_dot_0.
      destruct H as [Hm Hp]. split; [exact Hm|].
      apply (inj (String.app _)) in Hp. exact (inj pretty _ _ Hp).
    + intros [Hm ->]. unfold scoped_key_of. rewrite Hm. reflexivity.
  - intros now process. cbn. apply N.mod_lt. discriminate.
Qed.

(** X22: what a copy registers, a copy of another build of the same major
    version reads: after the first copy's [registerGlobal(c, i, diag,
    false)] under a free name, [getGlobal(c)] of the second copy returns
    [i], when its [isCompatible] accepts the first copy's version. *)
Theorem X22_same_major_shares_registration (V1 V2 : string)
    (isCompatible2 : string -> bool) (Error_stack : string -> option string)
    (c : Capability) (i : Instance) (diag : DiagLogger) (now2 : N) (s : State) :
  major V1 = major V2 ->
  V1 <> "" ->
  isCompatible2 V1 = true ->
  no_prior_registration V1 c s ->
  result (getGlobal V2 isCompatible2 (K_api c)
            (load_module now2
               (final (registerGlobal V1 Error_stack (K_api c) (Some i) diag false s))))
  = Some (Some i).
Proof.
  intros Hm Hne Hok Hfree. rewrite getGlobal_result. f_equal.
  destruct (register_writes_slot V1 Error_stack c i diag s Hfree)
    as (t & Ht & Hv & Hi).
  unfold visible. rewrite <- (primary_key_same_major V1 V2 Hm).
  cbn [load_module _global]. rewrite Ht, Hv.
  apply String.eqb_neq in Hne. rewrite Hne, Hok. exact Hi.
Qed.

(** X23: copies of builds with different major versions do not see each
    other: neither [registerGlobal] nor [unregisterGlobal] of one copy
    changes what [getGlobal] of the other returns. *)
Theorem X23_other_major_isolated (V1 V2 : string)
    (isCompatible2 : string -> bool) (Error_stack : string -> option string)
    (type1 type2 : Key) (instance : Indexed type1) (diag : DiagLogger)
    (allowOverride : bool) (s : State) :
  major V1 <> major V2 ->
  module_invariant V1 s ->
  result (getGlobal V2 isCompatible2 type2
            (final (registerGlobal V1 Error_stack type1 instance diag allowOverride s)))
  = result (getGlobal V2 isCompatible2 type2 s)
  /\ result (getGlobal V2 isCompatible2 type2
               (final (unregisterGlobal V1 type1 diag s)))
     = result (getGlobal V2 isCompatible2 type2 s).
Proof.
  intros Hm Hinv. rewrite !getGlobal_result.
  pose proof (primary_key_other_major V2 V1 (fun H => Hm (eq_sym H))) as Hkey.
  split; f_equal; apply visible_ext.
  - apply registerGlobal_other_keys; [exact Hkey|].
    intros _. rewrite (scoped_key_now_invariant V1 s Hinv).
    apply primary_key_not_scoped.
  - apply unregisterGlobal_other_keys. exact Hkey.
Qed.

(** X24: [unregisterGlobal] checks no version: a copy of any build of the
    same major version removes what another copy registered, and
    [getGlobal(c)] of that copy then returns [undefined]. *)
Theorem X24_unregister_ignores_version (V1 V2 : string)
    (isCompatible1 : string -> bool) (c : Capability) (diag : DiagLogger)
    (s : State) :
  major V1 = major V2 ->
  returns_normally diag ->
  result (getGlobal V1 isCompatible1 (K_api c)
            (final (unregisterGlobal V2 (K_api c) diag s)))
  = Some None.
Proof.
  intros Hm Hd. rewrite getGlobal_result, (unregisterGlobal_global V2 _ _ _ Hd).
  f_equal. unfold visible, slot_deleted.
  rewrite (primary_key_same_major V1 V2 Hm).
  destruct (_global s !! GLOBAL_OPENTELEMETRY_API_KEY V2) as [t|] eqn:Ht; cbn.
  - rewrite lookup_insert_eq. cbn. rewrite lookup_delete_eq.
    destruct (version t) as [v|]; [|reflexivity].
    destruct (String.eqb v ""); [reflexivity|].
    destruct (isCompatible1 v); reflexivity.
  - rewrite Ht. reflexivity.
Qed.

(** ** The further properties at concrete inputs *)

Lemma broken_logger_throws :
  forall msg tr, debug broken_logger msg tr = Some "logger failed".
Proof. intros msg tr. reflexivity. Qed.

(** X1 at a concrete input: the major part of 1.4.0. *)
Lemma X1_witness :
  split_dot_0 ("1" +:+ String "." "4.0") = "1" /\ split_dot_0 "1" = "1".
Proof.
  destruct X1_major_is_text_before_first_dot as (Hsplit & Hwhole & _).
  split.
  - apply (Hsplit "1" "4.0"). reflexivity.
  - apply (Hwhole "1"). reflexivity.
Defined.

(** X2 at concrete inputs: 1.4.0 and 1.3.0 share a key, 1.4.0 and 2.0.0 do
    not. *)
Lemma X2_witness :
  GLOBAL_OPENTELEMETRY_API_KEY sample_VERSION = GLOBAL_OPENTELEMETRY_API_KEY older_VERSION
  /\ GLOBAL_OPENTELEMETRY_API_KEY sample_VERSION <> GLOBAL_OPENTELEMETRY_API_KEY "2.0.0".
Proof.
  split.
  - apply (proj1 (X2_primary_key_by_major sample_VERSION older_VERSION)).
    reflexivity.
  - apply (proj2 (X2_primary_key_by_major sample_VERSION "2.0.0")).
    vm_compute. intros H. discriminate H.
Defined.

(** X4 at concrete inputs: builds 1.4.0 and 1.3.0 with identifier 123. *)
Lemma X4_witness :
  scoped_key_of sample_VERSION 123 = scoped_key_of older_VERSION 123.
Proof.
  apply (proj2 (proj1 X4_scoped_key_collision sample_VERSION older_VERSION 123%N 123%N)).
  split; reflexivity.
Defined.

(** X5 at a concrete input: a run of three calls after loading. *)
Lemma X5_witness :
  module_invariant sample_VERSION
    (run sample_VERSION sample_isCompatible sample_Error_stack
       [CallRegister K_diag (Some 1) quiet_logger true;
        CallGet K_diag;
        CallUnregister K_diag broken_logger]
       (load_module sample_now empty_process)).
Proof.
  destruct (X5_module_invariant_kept sample_VERSION sample_isCompatible
              sample_Error_stack) as (Hload & _ & _ & _ & Hrun).
  apply Hrun. apply Hload.
Defined.

(** X6 at a concrete input: [diag] holds instance 1, instance 2 is
    registered with an override allowed. *)
Lemma X6_witness :
  let s := final (registerGlobal sample_VERSION sample_Error_stack
                    (K_api K_diag) (Some 1) quiet_logger false
                    (load_module sample_now empty_process)) in
  exists s',
    registerGlobal sample_VERSION sample_Error_stack
      (K_api K_diag) (Some 2) quiet_logger true s = Returned true s'
    /\ result (getGlobal sample_VERSION sample_isCompatible (K_api K_diag) s')
       = Some (Some 2).
Proof.
  intros s.
  apply (X6_override_replaces sample_VERSION sample_isCompatible
           sample_Error_stack K_diag 2 quiet_logger s).
  - exact quiet_logger_returns.
  - intros H. discriminate H.
  - reflexivity.
  - exact I.
  - vm_compute. reflexivity.
Defined.

(** X8 at a concrete input: a predicate that accepts nothing. *)
Lemma X8_witness :
  let s := final (registerGlobal sample_VERSION sample_Error_stack
                    (K_api K_diag) (Some 1) quiet_logger false
                    (load_module sample_now empty_process)) in
  result (getGlobal sample_VERSION (fun _ => false) (K_api K_diag) s)
  = Some (undefined (K_api K_diag)).
Proof.
  intros s.
  apply (X8_incompatible_version_hides_all sample_VERSION (fun _ => false)
           (K_api K_diag) s
           {| version := Some sample_VERSION; slots := {[K_diag := 1]} |}
           sample_VERSION).
  - vm_compute. reflexivity.
  - reflexivity.
  - reflexivity.
Defined.

(** X10 at a concrete input: a copy of version 1.4.0 reads what a copy of
    version 1.3.0 registered. *)
Lemma X10_witness :
  let s := load_module later_now
             (final (registerGlobal older_VERSION sample_Error_stack
                       (K_api K_diag) (Some 1) quiet_logger false
                       (load_module sample_now empty_process))) in
  getGlobal sample_VERSION sample_isCompatible (K_api K_diag) s
  = Returned
      (get_prop {| version := Some older_VERSION; slots := {[K_diag := 1]} |}
         (K_api K_diag))
      (emit (IsCompatible older_VERSION) s).
Proof.
  intros s.
  apply (X10_get_reads_any_compatible_table sample_VERSION sample_isCompatible
           (K_api K_diag) s
           {| version := Some older_VERSION; slots := {[K_diag := 1]} |}
           older_VERSION).
  - vm_compute. reflexivity.
  - reflexivity.
  - intros H. discriminate H.
  - reflexivity.
Defined.

(** X11 at a concrete input: unregistering in a fresh process. *)
Lemma X11_witness :
  _global (final (unregisterGlobal sample_VERSION (K_api K_trace) quiet_logger
                    (load_module sample_now empty_process)))
  = ∅.
Proof.
  apply (X11_unregister_absent_changes_nothing sample_VERSION K_trace quiet_logger
           (load_module sample_now empty_process)).
  exact I.
Defined.

(** X12 at a concrete input: [metrics] registered and unregistered in a
    fresh process. *)
Lemma X12_witness :
  let s := load_module sample_now empty_process in
  exists s1 s2,
    registerGlobal sample_VERSION sample_Error_stack
      (K_api K_metrics) (Some 5) quiet_logger false s = Returned true s1
    /\ unregisterGlobal sample_VERSION (K_api K_metrics) quiet_logger s1
       = Returned tt s2
    /\ _global s2
       = {[GLOBAL_OPENTELEMETRY_API_KEY sample_VERSION := fresh_table sample_VERSION]}.
Proof.
  intros s.
  apply (X12_register_unregister_round_trip sample_VERSION sample_Error_stack
           K_metrics 5 quiet_logger s).
  - exact quiet_logger_returns.
  - exact I.
Defined.

(** X13 at a concrete input: [trace] is registered, then [diag] with a
    logger that throws. *)
Lemma X13_witness :
  let s := final (registerGlobal sample_VERSION sample_Error_stack
                    (K_api K_trace) (Some 2) quiet_logger false
                    (load_module sample_now empty_process)) in
  result (getGlobal sample_VERSION sample_isCompatible (K_api K_trace)
            (final (registerGlobal sample_VERSION sample_Error_stack
                      (K_api K_diag) (Some 1) broken_logger true s)))
  = result (getGlobal sample_VERSION sample_isCompatible (K_api K_trace) s).
Proof.
  intros s.
  apply (X13_register_leaves_other_names sample_VERSION sample_isCompatible
           sample_Error_stack K_diag K_trace (Some 1) broken_logger true s).
  intros H. discriminate H.
Defined.

(** X15 at a concrete input: an entry of the global object under another
    key. *)
Lemma X15_witness :
  let s := set_global {["some.other.symbol" := fresh_table "0.0.1"]}
             (load_module sample_now empty_process) in
  _global (final (registerGlobal sample_VERSION sample_Error_stack
                    (K_api K_diag) (Some 1) quiet_logger true s))
    !! "some.other.symbol"
  = _global s !! "some.other.symbol".
Proof.
  intros s.
  apply (X15_register_touches_two_entries sample_VERSION sample_Error_stack
           (K_api K_diag) (Some 1) quiet_logger true s "some.other.symbol").
  - vm_compute. intros H. discriminate H.
  - vm_compute. intros H. discriminate H.
Defined.

(** X16 at a concrete input: an override registration with a logger that
    throws, in a fresh process. *)
Lemma X16_witness :
  let s := load_module sample_now empty_process in
  exists s',
    registerGlobal sample_VERSION sample_Error_stack
      (K_api K_diag) (Some 1) broken_logger true s = Thrown "logger failed" s'
    /\ _global s' !! GLOBAL_OPENTELEMETRY_API_KEY sample_VERSION
       = _global s !! GLOBAL_OPENTELEMETRY_API_KEY sample_VERSION
    /\ SCOPED_OPENTELEMETRY_API_KEY s' = Some (scoped_key_now sample_VERSION s)
    /\ _global s' !! scoped_key_now sample_VERSION s
       = Some (set_prop
                 (nullish (_global s !! scoped_key_now sample_VERSION s)
                    (fresh_table sample_VERSION))
                 (K_api K_diag) (Some 1)).
Proof.
  intros s.
  apply (X16_throwing_logger_stops_before_primary sample_VERSION sample_Error_stack
           (K_api K_diag) (Some 1) broken_logger s "logger failed").
  - exact broken_logger_throws.
  - exact I.
Defined.

(** X17 at a concrete input: unregistering [diag] with a logger that
    throws. *)
Lemma X17_witness :
  let s := final (registerGlobal sample_VERSION sample_Error_stack
                    (K_api K_diag) (Some 1) quiet_logger false
                    (load_module sample_now empty_process)) in
  exists msg,
    unregisterGlobal sample_VERSION (K_api K_diag) broken_logger s
    = Thrown "logger failed" (emit (DiagDebug msg) s).
Proof.
  intros s.
  apply (X17_throwing_logger_keeps_slot sample_VERSION (K_api K_diag)
           broken_logger s "logger failed").
  exact broken_logger_throws.
Defined.

(** X18 at a concrete input: a registration without override with a logger
    that throws, in a fresh process. *)
Lemma X18_witness :
  let s := load_module sample_now empty_process in
  exists s' t,
    registerGlobal sample_VERSION sample_Error_stack
      (K_api K_diag) (Some 1) broken_logger false s = Thrown "logger failed" s'
    /\ _global s' !! GLOBAL_OPENTELEMETRY_API_KEY sample_VERSION = Some t
    /\ version t = Some sample_VERSION
    /\ slots t !! K_diag = Some 1.
Proof.
  intros s.
  apply (X18_throwing_logger_after_primary_write sample_VERSION sample_Error_stack
           K_diag 1 broken_logger s "logger failed").
  - exact broken_logger_throws.
  - exact I.
Defined.


(** X20 at a concrete input: a duplicate registration. *)
Lemma X20_witness :
  let s := final (registerGlobal sample_VERSION sample_Error_stack
                    (K_api K_diag) (Some 1) quiet_logger false
                    (load_module sample_now empty_process)) in
  exists b s' evs,
    registerGlobal sample_VERSION sample_Error_stack
      (K_api K_diag) (Some 2) quiet_logger false s = Returned b s'
    /\ trace s' = (trace s ++ evs)%list
    /\ length evs = 1
    /\ error_calls evs = (if b then 0 else 1).
Proof.
  intros s.
  apply (X20_diagnostics_of_register sample_VERSION sample_Error_stack
           (K_api K_diag) (Some 2) quiet_logger false s).
  exact quiet_logger_returns.
Defined.

(** X21 at a concrete input: a duplicate registration. *)
Lemma X21_witness :
  let s := final (registerGlobal sample_VERSION sample_Error_stack
                    (K_api K_diag) (Some 1) quiet_logger false
                    (load_module sample_now empty_process)) in
  let s' := final (registerGlobal sample_VERSION sample_Error_stack
                     (K_api K_diag) (Some 2) quiet_logger false s) in
  exists msg, s' = emit (DiagError msg) s.
Proof.
  intros s s'.
  apply (X21_rejected_registration_changes_nothing sample_VERSION
           sample_Error_stack K_diag (Some 2) quiet_logger s s').
  vm_compute. reflexivity.
Defined.

(** X22 at a concrete input: a copy of version 1.4.0 reads what a copy of
    version 1.3.0 registered. *)
Lemma X22_witness :
  result (getGlobal sample_VERSION sample_isCompatible (K_api K_diag)
            (load_module later_now
               (final (registerGlobal older_VERSION sample_Error_stack
                         (K_api K_diag) (Some 1) quiet_logger false
                         (load_module sample_now empty_process)))))
  = Some (Some 1).
Proof.
  apply (X22_same_major_shares_registration older_VERSION sample_VERSION
           sample_isCompatible sample_Error_stack K_diag 1 quiet_logger later_now
           (load_module sample_now empty_process)).
  - reflexivity.
  - intros H. discriminate H.
  - reflexivity.
  - exact I.
Defined.

(** X23 at a concrete input: a copy of version 2.0.0 registers and
    unregisters; a copy of version 1.4.0 reads the same as before. *)
Lemma X23_witness :
  let s := load_module later_now
             (final (registerGlobal sample_VERSION sample_Error_stack
                       (K_api K_diag) (Some 1) quiet_logger false
                       (load_module sample_now empty_process))) in
  result (getGlobal sample_VERSION sample_isCompatible (K_api K_diag)
            (final (registerGlobal "2.0.0" sample_Error_stack
                      (K_api K_diag) (Some 2) quiet_logger true s)))
  = result (getGlobal sample_VERSION sample_isCompatible (K_api K_diag) s)
  /\ result (getGlobal sample_VERSION sample_isCompatible (K_api K_diag)
               (final (unregisterGlobal "2.0.0" (K_api K_diag) quiet_logger s)))
     = result (getGlobal sample_VERSION sample_isCompatible (K_api K_diag) s).
Proof.
  intros s.
  apply (X23_other_major_isolated "2.0.0" sample_VERSION sample_isCompatible
           sample_Error_stack (K_api K_diag) (K_api K_diag) (Some 2)
           quiet_logger true s).
  - vm_compute. intros H. discriminate H.
  - exact I.
Defined.

(** X24 at a concrete input: a copy of version 1.4.0 unregisters what a copy
    of version 1.3.0 registered. *)
Lemma X24_witness :
  let s := load_module later_now
             (final (registerGlobal older_VERSION sample_Error_stack
                       (K_api K_diag) (Some 1) quiet_logger false
                       (load_module sample_now empty_process))) in
  result (getGlobal older_VERSION sample_isCompatible (K_api K_diag)
            (final (unregisterGlobal sample_VERSION (K_api K_diag) quiet_logger s)))
  = Some None.
Proof.
  intros s.
  apply (X24_unregister_ignores_version older_VERSION sample_VERSION
           sample_isCompatible K_diag quiet_logger s).
  - reflexivity.
  - exact quiet_logger_returns.
Defined.
